(** * saleor/dashboard/discount/forms.py

    A shallow embedding of the dashboard forms for sales and vouchers:
    [SaleForm.clean], [VoucherForm._generate_code], [country_choices] and
    the [save] hooks of the four voucher specialisation forms.

    Python objects that are mutated in place (the form, its bound model
    instance, the voucher table) are threaded explicitly through a small
    state-and-exception monad; a raised exception keeps the mutations made
    before it, as in Python. *)

From Stdlib Require Import QArith Ascii String.
From stdpp Require Import gmap strings list fin_maps.

Local Open Scope string_scope.
Local Open Scope list_scope.

(** ** Python values and exceptions *)

(** The values that occur in [cleaned_data] and on model attributes:
    [None], [str], [Decimal] (prices and sale values) and a reference to a
    related model row by primary key. *)
Inductive PyVal : Type :=
  | VNone
  | VStr (s : string)
  | VDec (d : Q)
  | VRef (pk : Z).

Inductive PyExc : Type :=
  | KeyError (key : string)
  | ValueError
  | TypeError.

(** Python [a == b]. *)
Definition py_eq (a b : PyVal) : bool :=
  match a, b with
  | VNone, VNone => true
  | VStr s, VStr t => String.eqb s t
  | VDec x, VDec y => Qeq_bool x y
  | VRef x, VRef y => Z.eqb x y
  | _, _ => false
  end.

(** Python [a > n] for an integer literal [n]; only a [Decimal] is ordered
    against a number. *)
Definition py_gt_int (a : PyVal) (n : Z) : PyExc + bool :=
  match a with
  | VDec d => inr (negb (Qle_bool d (inject_Z n)))
  | _ => inl TypeError
  end.

Definition is_none (a : PyVal) : bool :=
  match a with VNone => true | _ => false end.

(** ** State and exceptions *)

Module Py.
(** A computation over a mutable world [S]: the final world is returned
    whether the computation finishes or raises. *)
Definition M (S A : Type) : Type := S → S * (PyExc + A).

Definition ret {S A} (a : A) : M S A := λ s, (s, inr a).
Definition raise {S A} (e : PyExc) : M S A := λ s, (s, inl e).
Definition bind {S A B} (m : M S A) (k : A → M S B) : M S B :=
  λ s, match m s with
       | (s', inr a) => k a s'
       | (s', inl e) => (s', inl e)
       end.
Definition get {S} : M S S := λ s, (s, inr s).
Definition modify {S} (f : S → S) : M S unit := λ s, (f s, inr tt).
(** Lift a pure fallible expression. *)
Definition lift {S A} (r : PyExc + A) : M S A := λ s, (s, r).
End Py.

Declare Scope py_scope.
Delimit Scope py_scope with py.
Notation "x <- m ;; k" := (Py.bind m (λ x, k))
  (at level 100, m at next level, right associativity) : py_scope.
Notation "m ;;; k" := (Py.bind m (λ _, k))
  (at level 100, right associativity) : py_scope.
Local Open Scope py_scope.

(** [d[key]] on a dict. *)
Definition getitem (d : gmap string PyVal) (key : string) : PyExc + PyVal :=
  match d !! key with
  | Some v => inr v
  | None => inl (KeyError key)
  end.

(** ** Forms *)

(** The part of a Django form object this module reads and writes once the
    fields have been cleaned: the per-field error lists and the cleaned
    data. *)
Record Form : Type := mkForm {
  errors : gmap string (list string);
  cleaned_data : gmap string PyVal;
}.

(** [Form.add_error(field, message)] for a field of the form: the message
    is appended to the field's error list and the field is dropped from
    [cleaned_data]. *)
Definition add_error (field msg : string) : Py.M Form unit :=
  Py.modify (λ f,
    {| errors := <[field := default [] (errors f !! field) ++ [msg]]> (errors f);
       cleaned_data := delete field (cleaned_data f) |}).

(** [ModelForm.clean]: returns [self.cleaned_data]. *)
Definition ModelForm_clean : Py.M Form (gmap string PyVal) :=
  f <- Py.get ;; Py.ret (cleaned_data f).

Module Sale.
(** Modelled from the spec: the discount-type constants of the [Sale]
    model (discount/models.py, not among the sources), a two-valued
    enumeration, percentage or fixed, stored as a string. *)
Definition FIXED : string := "fixed".
Definition PERCENTAGE : string := "percentage".
End Sale.

Module SaleForm.
Definition exceed_msg : string := "Sale cannot exceed 100%".

(** [SaleForm.clean].  The dict bound to [cleaned_data] is the form's own
    dict, so the value returned is read back after [add_error]. *)
Definition clean : Py.M Form (gmap string PyVal) :=
  cleaned <- ModelForm_clean ;;
  discount_type <- Py.lift (getitem cleaned "type") ;;
  value <- Py.lift (getitem cleaned "value") ;;
  (if py_eq discount_type (VStr Sale.PERCENTAGE)
   then
     gt <- Py.lift (py_gt_int value 100) ;;
     if (gt : bool) then add_error "value" exceed_msg else Py.ret tt
   else Py.ret tt) ;;;
  f <- Py.get ;; Py.ret (cleaned_data f).

(** [form.is_valid()] once cleaning has run: no errors recorded. *)
Definition is_valid (f : Form) : bool := bool_decide (errors f = ∅).
End SaleForm.

(** ** The Voucher model and its table *)

Module Voucher.
(** Modelled from the spec: the discount-value-type constants of the
    [Voucher] model (discount/models.py, not among the sources). *)
Definition DISCOUNT_VALUE_FIXED : string := "fixed".
Definition DISCOUNT_VALUE_PERCENTAGE : string := "percentage".

(** A [Voucher] instance: the attributes this module reads or writes.
    The four nullable attributes hold [VNone] for Python's [None]. *)
Record t : Type := mk {
  id : option Z;
  code : string;
  discount_value_type : string;
  category : PyVal;
  product : PyVal;
  limit : PyVal;
  apply_to : PyVal;
}.

Definition set_id (x : option Z) (v : t) : t :=
  mk x (code v) (discount_value_type v) (category v) (product v) (limit v) (apply_to v).
Definition set_category (x : PyVal) (v : t) : t :=
  mk (id v) (code v) (discount_value_type v) x (product v) (limit v) (apply_to v).
Definition set_product (x : PyVal) (v : t) : t :=
  mk (id v) (code v) (discount_value_type v) (category v) x (limit v) (apply_to v).
Definition set_limit (x : PyVal) (v : t) : t :=
  mk (id v) (code v) (discount_value_type v) (category v) (product v) x (apply_to v).
Definition set_apply_to (x : PyVal) (v : t) : t :=
  mk (id v) (code v) (discount_value_type v) (category v) (product v) (limit v) x.

(** The four attributes the specialisation forms null or keep. *)
Definition nullable (v : t) : PyVal * PyVal * PyVal * PyVal :=
  (category v, product v, limit v, apply_to v).

(** [setattr(instance, name, x)] for the form-editable attributes. *)
Definition setattr (name : string) (x : PyVal) (v : t) : t :=
  if String.eqb name "category" then set_category x v
  else if String.eqb name "product" then set_product x v
  else if String.eqb name "limit" then set_limit x v
  else if String.eqb name "apply_to" then set_apply_to x v
  else v.

(** [Voucher.objects.filter(code=code).exists()]. *)
Definition code_exists (tbl : list t) (c : string) : bool :=
  existsb (λ r, String.eqb (code r) c) tbl.

Definition has_pk (pk : Z) (r : t) : bool := bool_decide (id r = Some pk).

Definition next_pk (tbl : list t) : Z :=
  (1 + foldr (λ r m, Z.max (default 0 (id r)) m) 0 tbl)%Z.

(** [instance.save()]: a row with the instance's primary key is replaced,
    otherwise the instance is inserted, with a fresh key when it has
    none. *)
Definition save (v : t) (tbl : list t) : t * list t :=
  match id v with
  | Some pk =>
      if existsb (has_pk pk) tbl
      then (v, map (λ r, if has_pk pk r then v else r) tbl)
      else (v, tbl ++ [v])
  | None =>
      let v' := set_id (Some (next_pk tbl)) v in (v', tbl ++ [v'])
  end.
End Voucher.

(** ** Model forms bound to a voucher *)

(** What a voucher form's [save] can touch: the form, the [Voucher]
    instance bound to it, and the voucher table.  [errors] and
    [cleaned_data] of the form are what cleaning its bound data gives
    (both empty for a form without data); [validated] tells whether
    validation has run already ([self._errors] is no longer [None]), that
    is whether they have been computed and the cleaned fields written to
    the instance. *)
Record World : Type := mkWorld {
  form : Form;
  instance : Voucher.t;
  vouchers : list Voucher.t;
  validated : bool;
}.

Definition set_instance (f : Voucher.t → Voucher.t) : Py.M World unit :=
  Py.modify (λ w, mkWorld (form w) (f (instance w)) (vouchers w) (validated w)).

(** [construct_instance], run by [ModelForm._post_clean] while the form is
    validated: every field of [Meta.fields] present in [cleaned_data] is
    written to the instance. *)
Definition construct_instance (fields : list string)
    (cleaned : gmap string PyVal) (v : Voucher.t) : Voucher.t :=
  foldl (λ o name,
           match cleaned !! name with
           | Some x => Voucher.setattr name x o
           | None => o
           end) v fields.

(** [full_clean()]: with the fields cleaned, [_post_clean] writes them to
    the instance, errors or not, and the form counts as validated. *)
Definition post_clean (fields : list string) (w : World) : World :=
  mkWorld (form w)
          (construct_instance fields (cleaned_data (form w)) (instance w))
          (vouchers w)
          true.

(** What reading [self.errors] does to the form: [full_clean()] runs if
    it has not run before. *)
Definition ensure_validated (fields : list string) (w : World) : World :=
  if validated w then w else post_clean fields w.

(** The [errors] property: a form that has not been validated yet is
    validated first. *)
Definition form_errors (fields : list string)
    : Py.M World (gmap string (list string)) :=
  Py.modify (ensure_validated fields) ;;;
  w <- Py.get ;; Py.ret (errors (form w)).

(** [form.is_valid()]. *)
Definition is_valid (fields : list string) : Py.M World bool :=
  e <- form_errors fields ;; Py.ret (bool_decide (e = ∅)).

(** [ModelForm.save(commit)] of a form with the given [Meta.fields]: it
    reads [self.errors], which validates a form not validated before, and
    refuses a form with errors; otherwise it stores the instance when
    [commit] is true, and returns it. *)
Definition ModelForm_save (fields : list string) (commit : bool)
    : Py.M World Voucher.t :=
  e <- form_errors fields ;;
  if bool_decide (e = ∅)
  then
    (if commit
     then Py.modify (λ w, let '(v, tbl) := Voucher.save (instance w) (vouchers w)
                          in mkWorld (form w) v tbl (validated w))
     else Py.ret tt) ;;;
    w' <- Py.get ;; Py.ret (instance w')
  else Py.raise ValueError.

Module ShippingVoucherForm.
Definition fields : list string := ["apply_to"; "limit"].

Definition save (commit : bool) : Py.M World Voucher.t :=
  set_instance (Voucher.set_category VNone) ;;;
  set_instance (Voucher.set_product VNone) ;;;
  ModelForm_save fields commit.
End ShippingVoucherForm.

Module ValueVoucherForm.
Definition fields : list string := ["limit"].

Definition save (commit : bool) : Py.M World Voucher.t :=
  set_instance (Voucher.set_category VNone) ;;;
  set_instance (Voucher.set_apply_to VNone) ;;;
  set_instance (Voucher.set_product VNone) ;;;
  ModelForm_save fields commit.
End ValueVoucherForm.

Module CommonVoucherForm.
(** [save] of a subclass whose [Meta.fields] are [fields]. *)
Definition save (fields : list string) (commit : bool) : Py.M World Voucher.t :=
  set_instance (Voucher.set_category VNone) ;;;
  set_instance (Voucher.set_limit VNone) ;;;
  w <- Py.get ;;
  (if String.eqb (Voucher.discount_value_type (instance w))
                 Voucher.DISCOUNT_VALUE_PERCENTAGE
   then set_instance (Voucher.set_apply_to VNone)
   else Py.ret tt) ;;;
  ModelForm_save fields commit.
End CommonVoucherForm.

(** [ProductVoucherForm] and [CategoryVoucherForm] define no [save] of
    their own: both inherit [CommonVoucherForm.save]. *)
Module ProductVoucherForm.
Definition fields : list string := ["product"; "apply_to"].
Definition save : bool → Py.M World Voucher.t := CommonVoucherForm.save fields.
End ProductVoucherForm.

Module CategoryVoucherForm.
Definition fields : list string := ["category"; "apply_to"].
Definition save : bool → Py.M World Voucher.t := CommonVoucherForm.save fields.
End CategoryVoucherForm.

(** The four specialisation forms, to quantify over them. *)
Inductive VoucherFormClass : Type :=
  | Shipping
  | Value
  | Product
  | Category.

Definition form_fields (k : VoucherFormClass) : list string :=
  match k with
  | Shipping => ShippingVoucherForm.fields
  | Value => ValueVoucherForm.fields
  | Product => ProductVoucherForm.fields
  | Category => CategoryVoucherForm.fields
  end.

Definition form_save (k : VoucherFormClass) : bool → Py.M World Voucher.t :=
  match k with
  | Shipping => ShippingVoucherForm.save
  | Value => ValueVoucherForm.save
  | Product => ProductVoucherForm.save
  | Category => CategoryVoucherForm.save
  end.

(** The instance as the assignments of a form's [save] leave it, before
    the base [save] is called. *)
Definition assigned (k : VoucherFormClass) (v : Voucher.t) : Voucher.t :=
  match k with
  | Shipping => Voucher.set_product VNone (Voucher.set_category VNone v)
  | Value =>
      Voucher.set_product VNone
        (Voucher.set_apply_to VNone (Voucher.set_category VNone v))
  | Product | Category =>
      let v' := Voucher.set_limit VNone (Voucher.set_category VNone v) in
      if String.eqb (Voucher.discount_value_type v) Voucher.DISCOUNT_VALUE_PERCENTAGE
      then Voucher.set_apply_to VNone v' else v'
  end.

(** 1 for a value that is not [None], 0 for [None]. *)
Definition is_set (x : PyVal) : nat := if is_none x then 0 else 1.

(** How many of [category], [product], [limit], [apply_to] are not
    [None]. *)
Definition count_set (v : Voucher.t) : nat :=
  length (filter (λ x, is_none x = false)
            [Voucher.category v; Voucher.product v; Voucher.limit v; Voucher.apply_to v]).

(** How many of [category], [product], [limit] are not [None]. *)
Definition count_target (v : Voucher.t) : nat :=
  (is_set (Voucher.category v) + is_set (Voucher.product v)
   + is_set (Voucher.limit v))%nat.

(** ** Python string operations used by the code generator *)

Module Str.
(** [s[a:b]] for [0 <= a <= b]. *)
Definition slice (a b : nat) (s : string) : string := String.substring a (b - a) s.

(** [s.replace(old, new)] for a one-character [old]. *)
Fixpoint replace (old : ascii) (new s : string) : string :=
  match s with
  | EmptyString => EmptyString
  | String c s' =>
      if Ascii.eqb c old then new +:+ replace old new s'
      else String c (replace old new s')
  end.

Definition upper_char (c : ascii) : ascii :=
  let n := Ascii.nat_of_ascii c in
  if ((97 <=? n) && (n <=? 122))%nat then Ascii.ascii_of_nat (n - 32) else c.

(** [s.upper()] on ASCII text. *)
Fixpoint upper (s : string) : string :=
  match s with
  | EmptyString => EmptyString
  | String c s' => String (upper_char c) (upper s')
  end.

(** Every character of [s] satisfies [p]. *)
Fixpoint all (p : ascii → bool) (s : string) : bool :=
  match s with
  | EmptyString => true
  | String c s' => p c && all p s'
  end.

(** A lower-case hexadecimal digit, [0-9] or [a-f]. *)
Definition is_lower_hex (c : ascii) : bool :=
  let n := Ascii.nat_of_ascii c in
  (((48 <=? n) && (n <=? 57)) || ((97 <=? n) && (n <=? 102)))%nat.

(** A digit [0-9] or an upper-case letter [A-Z]. *)
Definition is_upper_alnum (c : ascii) : bool :=
  let n := Ascii.nat_of_ascii c in
  (((48 <=? n) && (n <=? 57)) || ((65 <=? n) && (n <=? 90)))%nat.
End Str.

(** ** The [uuid] module, as far as [uuid4] and [str] go *)

Module uuid.
Definition hexdigit (d : N) : ascii :=
  match d with
  | 0%N => "0" | 1%N => "1" | 2%N => "2" | 3%N => "3"
  | 4%N => "4" | 5%N => "5" | 6%N => "6" | 7%N => "7"
  | 8%N => "8" | 9%N => "9" | 10%N => "a" | 11%N => "b"
  | 12%N => "c" | 13%N => "d" | 14%N => "e" | _ => "f"
  end%char.

(** The [width] low hexadecimal digits of [n] in front of [acc], most
    significant first. *)
Fixpoint hex_onto (width : nat) (n : N) (acc : string) : string :=
  match width with
  | O => acc
  | S w => hex_onto w (n / 16)%N (String (hexdigit (n mod 16)%N) acc)
  end.

(** ['%032x' % n] for [n < 2^128]. *)
Definition hex32 (n : N) : string := hex_onto 32 n "".

(** [uuid4()]: the integer of a version-4 UUID made from 16 random
    bytes, given as the big-endian integer [r] they encode. *)
Definition uuid4 (r : N) : N :=
  let int := (r mod 2 ^ 128)%N in
  let int := N.ldiff int (N.shiftl 0xc000 48) in
  let int := N.lor int (N.shiftl 0x8000 48) in
  let int := N.ldiff int (N.shiftl 0xf000 64) in
  N.lor int (N.shiftl 4 76).

(** [str(u)]: the 8-4-4-4-12 hexadecimal form. *)
Definition str (u : N) : string :=
  let h := hex32 u in
  Str.slice 0 8 h +:+ "-" +:+ Str.slice 8 12 h +:+ "-" +:+
  Str.slice 12 16 h +:+ "-" +:+ Str.slice 16 20 h +:+ "-" +:+
  Str.slice 20 32 h.
End uuid.

Module VoucherForm.
(** The candidate computed in one turn of the loop from one [uuid4()]. *)
Definition candidate (r : N) : string :=
  Str.slice 0 12 (Str.upper (Str.replace "-" "" (uuid.str (uuid.uuid4 r)))).

(** [VoucherForm._generate_code].  The [while True] loop draws one UUID
    per turn; [rnd] lists the random draws still available, and [None]
    means the loop is still running when they are used up.  The result
    carries the draws left over. *)
Fixpoint _generate_code (tbl : list Voucher.t) (rnd : list N)
    : option (string * list N) :=
  match rnd with
  | [] => None
  | r :: rnd' =>
      let code := candidate r in
      if negb (Voucher.code_exists tbl code) then Some (code, rnd')
      else _generate_code tbl rnd'
  end.
End VoucherForm.

(** ** Shipping countries *)

Module ShippingMethodCountry.
Record t : Type := mk {
  country_code : string;
  shipping_method : Z;
  price : Q;
}.
End ShippingMethodCountry.

(** [dict(pairs)]: a later pair replaces an earlier one with the same
    key. *)
Definition dict (pairs : list (string * string)) : gmap string string :=
  foldl (λ m kv, <[kv.1 := kv.2]> m) ∅ pairs.

(** [queryset.values_list('country_code', flat=True).distinct()]: each
    stored code once.  The order of the rows of SELECT DISTINCT is not
    fixed by the query. *)
Definition distinct_country_codes (tbl : list ShippingMethodCountry.t) : list string :=
  remove_dups (map ShippingMethodCountry.country_code tbl).

(** [[f(x) for x in xs]] where [f] may raise: the first exception ends the
    comprehension. *)
Fixpoint comprehension {A B} (f : A → PyExc + B) (xs : list A) : PyExc + list B :=
  match xs with
  | [] => inr []
  | x :: xs' =>
      match f x with
      | inl e => inl e
      | inr y =>
          match comprehension f xs' with
          | inl e => inl e
          | inr ys => inr (y :: ys)
          end
      end
  end.

(** [country_dict[country_code]]. *)
Definition dict_getitem (d : gmap string string) (key : string) : PyExc + string :=
  match d !! key with
  | Some v => inr v
  | None => inl (KeyError key)
  end.

(** [country_choices()], over the static table [COUNTRY_CODE_CHOICES] of
    shipping/models.py and the rows of [ShippingMethodCountry]. *)
Definition country_choices (COUNTRY_CODE_CHOICES : list (string * string))
    (tbl : list ShippingMethodCountry.t) : PyExc + list (string * string) :=
  let country_codes := distinct_country_codes tbl in
  let country_dict := dict COUNTRY_CODE_CHOICES in
  comprehension
    (λ country_code,
       match dict_getitem country_dict country_code with
       | inl e => inl e
       | inr name => inr (country_code, name)
       end)
    country_codes.

(** ** [VoucherForm.__init__] and the initial code of the form *)

(** Python truthiness of a value ([bool(v)]). *)
Definition py_bool (v : PyVal) : bool :=
  match v with
  | VNone => false
  | VStr s => negb (String.eqb s "")
  | VDec d => negb (Qeq_bool d 0)
  | VRef _ => true
  end.

(** A value of the [initial] dict: a plain value, or the bound method
    [self._generate_code] that [__init__] puts there. *)
Inductive InitVal : Type :=
  | IVal (v : PyVal)
  | IGenerateCode.

(** The keyword arguments [__init__] looks at. *)
Record Kwargs : Type := mkKwargs {
  kw_initial : option (gmap string InitVal);
  kw_instance : option Voucher.t;
}.

(** [bool(initial.get('code'))]: a missing key gives [None]; a bound
    method is true. *)
Definition init_code_given (initial : gmap string InitVal) : bool :=
  match initial !! "code" with
  | None => false
  | Some (IVal v) => py_bool v
  | Some IGenerateCode => true
  end.

(** [VoucherForm.__init__], up to the call of the base constructor: the
    result is the [kwargs] handed to it.  The dict under 'initial' is the
    caller's own dict when one was passed. *)
Definition VoucherForm__init__ (kwargs : Kwargs) : Kwargs :=
  let initial := default ∅ (kw_initial kwargs) in
  let instance := kw_instance kwargs in
  let initial :=
    if match instance with
       | Some v => bool_decide (Voucher.id v = None) && negb (init_code_given initial)
       | None => false
       end
    then <["code" := IGenerateCode]> initial
    else initial in
  mkKwargs (Some initial) instance.

(** The initial value the form shows for 'code'
    ([BaseModelForm.__init__] followed by [get_initial_for_field]): the
    entry of [initial] if there is one, called if it is callable, otherwise
    the code of the instance.  Calling [_generate_code] uses the voucher
    table and random draws as above. *)
Definition initial_code (kwargs : Kwargs) (tbl : list Voucher.t) (rnd : list N)
    : option (PyVal * list N) :=
  match default ∅ (kw_initial kwargs) !! "code" with
  | Some IGenerateCode =>
      match VoucherForm._generate_code tbl rnd with
      | Some (c, rnd') => Some (VStr c, rnd')
      | None => None
      end
  | Some (IVal v) => Some (v, rnd)
  | None =>
      Some (match kw_instance kwargs with
            | Some v => VStr (Voucher.code v)
            | None => VNone
            end, rnd)
  end.

(** An upper-case hexadecimal digit, [0-9] or [A-F]. *)
Definition is_upper_hex (c : ascii) : bool :=
  let n := Ascii.nat_of_ascii c in
  (((48 <=? n) && (n <=? 57)) || ((65 <=? n) && (n <=? 70)))%nat.

(** The top 48 of the 128 random bits of a draw. *)
Definition top48 (r : N) : N := ((r mod 2 ^ 128) / 2 ^ 80)%N.

(** The world of a voucher form with the form replaced. *)
Definition with_form (f : Form) (w : World) : World :=
  mkWorld f (instance w) (vouchers w) (validated w).

(** ** Sample forms and tables *)

(** A sale form whose fields cleaned to a percentage discount of
    [value]. *)
Definition sale_form (value : Q) : Form :=
  mkForm ∅ {[ "type" := VStr Sale.PERCENTAGE; "value" := VDec value ]}.

(** A shipping voucher form submitted with a country and a minimum order
    value, bound to a new voucher; like the next two forms it has not
    been validated yet. *)
Definition shipping_world : World :=
  mkWorld (mkForm ∅ {[ "apply_to" := VStr "US"; "limit" := VDec (10 # 1) ]})
          (Voucher.mk None "SHIP2017" Voucher.DISCOUNT_VALUE_FIXED
                      VNone VNone VNone VNone)
          [] false.

(** A category voucher form submitted with category 7, bound to a stored
    fixed-value voucher that was a product voucher for product 3. *)
Definition category_world : World :=
  let v := Voucher.mk (Some 1%Z) "SPRING" Voucher.DISCOUNT_VALUE_FIXED
                      VNone (VRef 3) VNone VNone in
  mkWorld (mkForm ∅ {[ "category" := VRef 7; "apply_to" := VStr "" ]}) v [v] false.

(** A product voucher form submitted with product 3 and an apply-to
    choice, bound to a new voucher of the given discount value type. *)
Definition product_world (discount_value_type : string) : World :=
  mkWorld (mkForm ∅ {[ "product" := VRef 3; "apply_to" := VStr "one" ]})
          (Voucher.mk None "TENOFF" discount_value_type VNone VNone VNone VNone)
          [] false.

(** A static country table and two shipping tables: one that stays
    within it, with Poland used by two shipping methods, and one with a
    country code the table does not list. *)
Definition sample_choices : list (string * string) :=
  [("", "Rest of World"); ("PL", "Poland"); ("US", "United States of America")].

Definition sample_countries : list ShippingMethodCountry.t :=
  [ShippingMethodCountry.mk "PL" 1 (10 # 1);
   ShippingMethodCountry.mk "US" 1 (25 # 1);
   ShippingMethodCountry.mk "PL" 2 (12 # 1)].

Definition unlisted_countries : list ShippingMethodCountry.t :=
  [ShippingMethodCountry.mk "PL" 1 (10 # 1);
   ShippingMethodCountry.mk "XX" 1 (25 # 1)].

(** A voucher table holding the code that the first of two random draws
    leads to. *)
Definition taken_codes : list Voucher.t :=
  [Voucher.mk (Some 1%Z) "123456789ABC" Voucher.DISCOUNT_VALUE_FIXED
              VNone VNone VNone VNone].

Definition two_draws : list N :=
  [0x123456789abcdef0123456789abcdef0%N; 0xfedcba9876543210fedcba9876543210%N].

(** A form for a new voucher, constructed without initial data, and one
    for the stored voucher of [taken_codes]. *)
Definition new_voucher_kwargs : Kwargs :=
  mkKwargs None
    (Some (Voucher.mk None "" Voucher.DISCOUNT_VALUE_FIXED VNone VNone VNone VNone)).

Definition stored_voucher_kwargs : Kwargs :=
  mkKwargs (Some {[ "name" := IVal (VStr "Spring") ]})
    (Some (Voucher.mk (Some 1%Z) "123456789ABC" Voucher.DISCOUNT_VALUE_FIXED
                      VNone VNone VNone VNone)).

(** A sale form with a fixed discount of 500, and a shipping voucher form
    that failed validation. *)
Definition fixed_sale_form : Form :=
  mkForm ∅ {[ "type" := VStr Sale.FIXED; "value" := VDec (500 # 1) ]}.

Definition invalid_shipping_world : World :=
  mkWorld (mkForm {[ "limit" := ["Enter a number."] ]} {[ "apply_to" := VStr "US" ]})
          (Voucher.mk (Some 1%Z) "SPRING" Voucher.DISCOUNT_VALUE_FIXED
                      (VRef 7) (VRef 3) VNone VNone)
          [Voucher.mk (Some 1%Z) "SPRING" Voucher.DISCOUNT_VALUE_FIXED
                      (VRef 7) (VRef 3) VNone VNone] true.

(** * Theorems *)

(** ** [SaleForm.clean] *)

Lemma gt_100_true (v : Q) :
  (100 < v)%Q → negb (Qle_bool v (inject_Z 100)) = true.
Proof.
  intros H. apply negb_true_iff. apply not_true_is_false.
  rewrite Qle_bool_iff. intros Hle. exact (Qlt_not_le _ _ H Hle).
Qed.

Lemma gt_100_false (v : Q) :
  (v <= 100)%Q → negb (Qle_bool v (inject_Z 100)) = false.
Proof.
  intros H. apply negb_false_iff. apply Qle_bool_iff. exact H.
Qed.

Ltac run_clean :=
  unfold SaleForm.clean, ModelForm_clean, Py.bind, Py.get, Py.ret, Py.lift,
    getitem; cbn.

(** C1: with type = PERCENTAGE in the cleaned data, a value above 100
    makes [clean] attach the message to the 'value' field (and drop the
    value from the cleaned data), so the form is invalid; a value of at
    most 100 makes [clean] return the cleaned data with the form, errors
    included, left as it was. *)
Theorem clean_percentage (f : Form) (v : Q) :
  cleaned_data f !! "type" = Some (VStr Sale.PERCENTAGE) →
  cleaned_data f !! "value" = Some (VDec v) →
  ((100 < v)%Q →
     ∃ f', SaleForm.clean f = (f', inr (cleaned_data f')) ∧
           f' = (add_error "value" SaleForm.exceed_msg f).1 ∧
           SaleForm.exceed_msg ∈ default [] (errors f' !! "value") ∧
           SaleForm.is_valid f' = false) ∧
  ((v <= 100)%Q →
     SaleForm.clean f = (f, inr (cleaned_data f))).
Proof.
  intros Ht Hv. split; intros Hcmp.
  - exists (add_error "value" SaleForm.exceed_msg f).1.
    run_clean. rewrite Ht, Hv. cbn. rewrite (gt_100_true v Hcmp). cbn.
    split; [reflexivity|]. split; [reflexivity|]. split.
    + rewrite lookup_insert_eq. cbn. apply elem_of_app. right.
      apply list_elem_of_singleton. reflexivity.
    + unfold SaleForm.is_valid. apply bool_decide_eq_false. cbn.
      apply insert_non_empty.
  - run_clean. rewrite Ht, Hv. cbn. rewrite (gt_100_false v Hcmp).
    reflexivity.
Qed.

Lemma clean_percentage_witness :
  (∃ f', SaleForm.clean (sale_form (150 # 1)) = (f', inr (cleaned_data f')) ∧
         f' = (add_error "value" SaleForm.exceed_msg (sale_form (150 # 1))).1 ∧
         SaleForm.exceed_msg ∈ default [] (errors f' !! "value") ∧
         SaleForm.is_valid f' = false) ∧
  SaleForm.clean (sale_form (100 # 1))
    = (sale_form (100 # 1), inr (cleaned_data (sale_form (100 # 1)))).
Proof.
  split.
  - apply (proj1 (clean_percentage (sale_form (150 # 1)) (150 # 1) eq_refl eq_refl)).
    reflexivity.
  - apply (proj2 (clean_percentage (sale_form (100 # 1)) (100 # 1) eq_refl eq_refl)).
    discriminate.
Defined.

(** C9: [clean] reads cleaned_data['type'] and cleaned_data['value']
    without a guard: when 'type' is absent it raises KeyError('type'); when
    'type' is present and 'value' is absent it raises KeyError('value');
    in particular a form on which field validation of 'value' failed
    (an error was added for 'value') raises KeyError('value').  No error is
    attached in any of these cases. *)
Theorem clean_key_error (f : Form) :
  (cleaned_data f !! "type" = None →
     SaleForm.clean f = (f, inl (KeyError "type"))) ∧
  (is_Some (cleaned_data f !! "type") → cleaned_data f !! "value" = None →
     SaleForm.clean f = (f, inl (KeyError "value"))) ∧
  (∀ msg, is_Some (cleaned_data f !! "type") →
     let f' := (add_error "value" msg f).1 in
     SaleForm.clean f' = (f', inl (KeyError "value"))).
Proof.
  split; [|split].
  - intros Ht. run_clean. rewrite Ht. reflexivity.
  - intros [t Ht] Hv. run_clean. rewrite Ht, Hv. reflexivity.
  - intros msg [t Ht] f'. subst f'. run_clean.
    rewrite lookup_delete_ne by discriminate. rewrite Ht.
    rewrite lookup_delete_eq. reflexivity.
Qed.

Lemma clean_key_error_witness :
  SaleForm.clean (mkForm ∅ {[ "value" := VDec (5 # 1) ]})
    = (mkForm ∅ {[ "value" := VDec (5 # 1) ]}, inl (KeyError "type")) ∧
  SaleForm.clean (mkForm {[ "value" := ["Enter a number."] ]}
                         {[ "type" := VStr Sale.PERCENTAGE ]})
    = (mkForm {[ "value" := ["Enter a number."] ]}
              {[ "type" := VStr Sale.PERCENTAGE ]}, inl (KeyError "value")).
Proof.
  split.
  - apply (proj1 (clean_key_error (mkForm ∅ {[ "value" := VDec (5 # 1) ]}))).
    reflexivity.
  - apply (proj1 (proj2 (clean_key_error
             (mkForm {[ "value" := ["Enter a number."] ]}
                     {[ "type" := VStr Sale.PERCENTAGE ]})))).
    + eexists. reflexivity.
    + reflexivity.
Defined.

(** ** Saving a voucher form *)

Lemma Voucher_save_nullable (v : Voucher.t) (tbl : list Voucher.t) :
  Voucher.nullable (Voucher.save v tbl).1 = Voucher.nullable v.
Proof.
  unfold Voucher.save. destruct (Voucher.id v) as [pk|].
  - destruct (existsb (Voucher.has_pk pk) tbl); reflexivity.
  - reflexivity.
Qed.

Lemma Voucher_save_stored (v : Voucher.t) (tbl : list Voucher.t) :
  (Voucher.save v tbl).1 ∈ (Voucher.save v tbl).2.
Proof.
  unfold Voucher.save. destruct (Voucher.id v) as [pk|].
  - destruct (existsb (Voucher.has_pk pk) tbl) eqn:Hex; cbn.
    + apply existsb_exists in Hex as (r & Hin & Hr).
      apply list_elem_of_fmap. exists r. rewrite Hr.
      split; [reflexivity | by apply list_elem_of_In].
    + apply elem_of_app. right. by apply list_elem_of_singleton.
  - cbn. apply elem_of_app. right. by apply list_elem_of_singleton.
Qed.

Lemma Voucher_save_code_type (v : Voucher.t) (tbl : list Voucher.t) :
  Voucher.code (Voucher.save v tbl).1 = Voucher.code v ∧
  Voucher.discount_value_type (Voucher.save v tbl).1 = Voucher.discount_value_type v.
Proof.
  unfold Voucher.save. destruct (Voucher.id v) as [pk|].
  - destruct (existsb (Voucher.has_pk pk) tbl); done.
  - done.
Qed.

Lemma ensure_validated_form (fields : list string) (w : World) :
  form (ensure_validated fields w) = form w ∧
  vouchers (ensure_validated fields w) = vouchers w ∧
  validated (ensure_validated fields w) = true.
Proof. unfold ensure_validated. by destruct (validated w) eqn:Hv. Qed.

(** [is_valid()] validates a form once: on a form not validated before it
    is [post_clean]; on a validated form it changes nothing. *)
Lemma is_valid_spec (fields : list string) (w : World) :
  is_valid fields w
  = (if validated w then w else post_clean fields w,
     inr (bool_decide (errors (form w) = ∅))).
Proof.
  unfold is_valid, form_errors, Py.bind, Py.modify, Py.get, Py.ret,
    ensure_validated. cbn.
  by destruct (validated w).
Qed.

(** The base [save] first validates a form not validated before.  It
    keeps the form, and the nullable attributes, the code and the discount
    value type that validation leaves on the instance; on a form without
    errors it returns the instance, stored when [commit] is true; on a
    form with errors it raises after validation and stores nothing. *)
Lemma ModelForm_save_spec (fields : list string) (commit : bool) (w : World) :
  form (ModelForm_save fields commit w).1 = form w ∧
  validated (ModelForm_save fields commit w).1 = true ∧
  Voucher.nullable (instance (ModelForm_save fields commit w).1)
    = Voucher.nullable (instance (ensure_validated fields w)) ∧
  Voucher.code (instance (ModelForm_save fields commit w).1)
    = Voucher.code (instance (ensure_validated fields w)) ∧
  Voucher.discount_value_type (instance (ModelForm_save fields commit w).1)
    = Voucher.discount_value_type (instance (ensure_validated fields w)) ∧
  (errors (form w) = ∅ →
     (ModelForm_save fields commit w).2
       = inr (instance (ModelForm_save fields commit w).1) ∧
     (commit = true →
        instance (ModelForm_save fields commit w).1
          ∈ vouchers (ModelForm_save fields commit w).1) ∧
     (commit = false →
        ModelForm_save fields commit w
        = (ensure_validated fields w, inr (instance (ensure_validated fields w))))) ∧
  (errors (form w) ≠ ∅ →
     ModelForm_save fields commit w = (ensure_validated fields w, inl ValueError)).
Proof.
  destruct (ensure_validated_form fields w) as (Hf & Ht & Hv).
  unfold ModelForm_save, form_errors, Py.bind, Py.get, Py.ret, Py.raise,
    Py.modify. cbn.
  set (w1 := ensure_validated fields w) in *. rewrite Hf.
  destruct (bool_decide (errors (form w) = ∅)) eqn:He.
  - apply bool_decide_eq_true in He.
    destruct commit; cbn.
    + pose proof (Voucher_save_nullable (instance w1) (vouchers w1)) as Hn.
      pose proof (Voucher_save_stored (instance w1) (vouchers w1)) as Hs.
      pose proof (Voucher_save_code_type (instance w1) (vouchers w1)) as [Hc Hd].
      destruct (Voucher.save (instance w1) (vouchers w1)) as [v tbl]; cbn in *.
      repeat split; try done.
    + repeat split; done.
  - apply bool_decide_eq_false in He. cbn. repeat split; try done.
Qed.

(** Each [save] is its assignments followed by the base [save]. *)
Lemma form_save_unfold (k : VoucherFormClass) (commit : bool) (w : World) :
  form_save k commit w =
  ModelForm_save (form_fields k) commit
    (mkWorld (form w) (assigned k (instance w)) (vouchers w) (validated w)).
Proof.
  destruct k; cbn [form_save form_fields assigned]; try reflexivity;
    unfold ProductVoucherForm.save, CategoryVoucherForm.save,
      CommonVoucherForm.save, Py.bind, Py.get, set_instance, Py.modify; cbn;
    destruct (String.eqb _ _); reflexivity.
Qed.

(** The instance validation and the assignments leave: on a validated
    form the assignments stand; otherwise validation, run by the base
    [save], writes the form's fields after them. *)
Lemma form_save_final (k : VoucherFormClass) (commit : bool) (w : World) :
  let final :=
    if validated w then assigned k (instance w)
    else construct_instance (form_fields k) (cleaned_data (form w))
           (assigned k (instance w)) in
  Voucher.nullable (instance (form_save k commit w).1) = Voucher.nullable final ∧
  Voucher.code (instance (form_save k commit w).1) = Voucher.code final ∧
  Voucher.discount_value_type (instance (form_save k commit w).1)
    = Voucher.discount_value_type final.
Proof.
  rewrite form_save_unfold.
  destruct (ModelForm_save_spec (form_fields k) commit
              (mkWorld (form w) (assigned k (instance w)) (vouchers w) (validated w)))
    as (_ & _ & Hn & Hc & Hd & _).
  rewrite Hn, Hc, Hd. unfold ensure_validated. cbn.
  by destruct (validated w).
Qed.

Lemma assigned_nullable (k : VoucherFormClass) (v : Voucher.t) :
  Voucher.nullable (assigned k v) =
  match k with
  | Shipping => (VNone, VNone, Voucher.limit v, Voucher.apply_to v)
  | Value => (VNone, VNone, Voucher.limit v, VNone)
  | Product | Category =>
      (VNone, Voucher.product v, VNone,
       if String.eqb (Voucher.discount_value_type v) Voucher.DISCOUNT_VALUE_PERCENTAGE
       then VNone else Voucher.apply_to v)
  end.
Proof. destruct k; cbn; try reflexivity; by destruct (String.eqb _ _). Qed.

Lemma assigned_code_type (k : VoucherFormClass) (v : Voucher.t) :
  Voucher.id (assigned k v) = Voucher.id v ∧
  Voucher.code (assigned k v) = Voucher.code v ∧
  Voucher.discount_value_type (assigned k v) = Voucher.discount_value_type v.
Proof. destruct k; cbn; try done; by destruct (String.eqb _ _). Qed.

(** Validation writes the fields of the form, and only those. *)
Lemma construct_instance_nullable (k : VoucherFormClass)
    (cleaned : gmap string PyVal) (v : Voucher.t) :
  Voucher.nullable (construct_instance (form_fields k) cleaned v) =
  match k with
  | Shipping =>
      (Voucher.category v, Voucher.product v,
       default (Voucher.limit v) (cleaned !! "limit"),
       default (Voucher.apply_to v) (cleaned !! "apply_to"))
  | Value =>
      (Voucher.category v, Voucher.product v,
       default (Voucher.limit v) (cleaned !! "limit"), Voucher.apply_to v)
  | Product =>
      (Voucher.category v, default (Voucher.product v) (cleaned !! "product"),
       Voucher.limit v, default (Voucher.apply_to v) (cleaned !! "apply_to"))
  | Category =>
      (default (Voucher.category v) (cleaned !! "category"), Voucher.product v,
       Voucher.limit v, default (Voucher.apply_to v) (cleaned !! "apply_to"))
  end.
Proof.
  destruct k; unfold construct_instance; cbn.
  - by destruct (cleaned !! "apply_to"), (cleaned !! "limit").
  - by destruct (cleaned !! "limit").
  - by destruct (cleaned !! "product"), (cleaned !! "apply_to").
  - by destruct (cleaned !! "category"), (cleaned !! "apply_to").
Qed.

Lemma setattr_id_code_type (name : string) (x : PyVal) (v : Voucher.t) :
  Voucher.id (Voucher.setattr name x v) = Voucher.id v ∧
  Voucher.code (Voucher.setattr name x v) = Voucher.code v ∧
  Voucher.discount_value_type (Voucher.setattr name x v)
    = Voucher.discount_value_type v.
Proof.
  unfold Voucher.setattr. repeat (destruct (String.eqb name _)); done.
Qed.

Lemma construct_instance_id_code_type
    (fields : list string) (cleaned : gmap string PyVal) (v : Voucher.t) :
  Voucher.id (construct_instance fields cleaned v) = Voucher.id v ∧
  Voucher.code (construct_instance fields cleaned v) = Voucher.code v ∧
  Voucher.discount_value_type (construct_instance fields cleaned v)
    = Voucher.discount_value_type v.
Proof.
  unfold construct_instance. revert v.
  induction fields as [|name fields IH]; intros v; cbn; [done|].
  destruct (IH (match cleaned !! name with
                | Some x => Voucher.setattr name x v
                | None => v
                end)) as (-> & -> & ->).
  destruct (cleaned !! name); [apply setattr_id_code_type | done].
Qed.

(** The attributes after the assignments and a validation that follows
    them. *)
Lemma unvalidated_nullable (k : VoucherFormClass)
    (cleaned : gmap string PyVal) (v : Voucher.t) :
  Voucher.nullable (construct_instance (form_fields k) cleaned (assigned k v)) =
  let a := if String.eqb (Voucher.discount_value_type v)
                         Voucher.DISCOUNT_VALUE_PERCENTAGE
           then VNone else Voucher.apply_to v in
  match k with
  | Shipping =>
      (VNone, VNone, default (Voucher.limit v) (cleaned !! "limit"),
       default (Voucher.apply_to v) (cleaned !! "apply_to"))
  | Value => (VNone, VNone, default (Voucher.limit v) (cleaned !! "limit"), VNone)
  | Product =>
      (VNone, default (Voucher.product v) (cleaned !! "product"), VNone,
       default a (cleaned !! "apply_to"))
  | Category =>
      (default VNone (cleaned !! "category"), Voucher.product v, VNone,
       default a (cleaned !! "apply_to"))
  end.
Proof.
  rewrite construct_instance_nullable.
  destruct k; cbn; try reflexivity; by destruct (String.eqb _ _).
Qed.

Lemma nullable_inv (v : Voucher.t) (c p l a : PyVal) :
  Voucher.nullable v = (c, p, l, a) →
  Voucher.category v = c ∧ Voucher.product v = p ∧
  Voucher.limit v = l ∧ Voucher.apply_to v = a.
Proof. unfold Voucher.nullable. intros [= -> -> -> ->]. done. Qed.

(** The nullable attributes once a form is saved, by form and by whether
    it had been validated. *)
Lemma form_save_nullable (k : VoucherFormClass) (commit : bool) (w : World) :
  Voucher.nullable (instance (form_save k commit w).1) =
  if validated w then Voucher.nullable (assigned k (instance w))
  else Voucher.nullable
         (construct_instance (form_fields k) (cleaned_data (form w))
            (assigned k (instance w))).
Proof.
  rewrite (proj1 (form_save_final k commit w)). by destruct (validated w).
Qed.

Lemma form_save_result (k : VoucherFormClass) (commit : bool) (w : World) :
  errors (form w) = ∅ →
  (form_save k commit w).2 = inr (instance (form_save k commit w).1) ∧
  (commit = true →
     instance (form_save k commit w).1 ∈ vouchers (form_save k commit w).1).
Proof.
  intros He. rewrite form_save_unfold.
  destruct (ModelForm_save_spec (form_fields k) commit
              (mkWorld (form w) (assigned k (instance w)) (vouchers w) (validated w)))
    as (_ & _ & _ & _ & _ & Hok & _).
  destruct (Hok He) as (H1 & H2 & _). done.
Qed.

(** C5: saving a [ShippingVoucherForm] leaves the instance with
    category = None and product = None, whatever the instance and the
    submitted data were; on a form without errors the call returns that
    instance, stored in the voucher table when [commit] is true. *)
Theorem shipping_save_nulls (commit : bool) (w : World) :
  Voucher.category (instance (ShippingVoucherForm.save commit w).1) = VNone ∧
  Voucher.product (instance (ShippingVoucherForm.save commit w).1) = VNone ∧
  (errors (form w) = ∅ →
     (ShippingVoucherForm.save commit w).2
       = inr (instance (ShippingVoucherForm.save commit w).1) ∧
     (commit = true →
        instance (ShippingVoucherForm.save commit w).1
          ∈ vouchers (ShippingVoucherForm.save commit w).1)).
Proof.
  pose proof (form_save_nullable Shipping commit w) as Hn.
  rewrite (construct_instance_nullable Shipping), assigned_nullable in Hn.
  cbn [form_save] in Hn.
  split; [|split].
  - destruct (validated w); by apply nullable_inv in Hn as (-> & _).
  - destruct (validated w); by apply nullable_inv in Hn as (_ & -> & _).
  - apply (form_save_result Shipping).
Qed.

Lemma shipping_save_nulls_witness :
  Voucher.category (instance (ShippingVoucherForm.save true shipping_world).1) = VNone ∧
  Voucher.product (instance (ShippingVoucherForm.save true shipping_world).1) = VNone ∧
  (ShippingVoucherForm.save true shipping_world).2
    = inr (instance (ShippingVoucherForm.save true shipping_world).1) ∧
  instance (ShippingVoucherForm.save true shipping_world).1
    ∈ vouchers (ShippingVoucherForm.save true shipping_world).1.
Proof.
  destruct (shipping_save_nulls true shipping_world) as (H1 & H2 & H3).
  destruct (H3 eq_refl) as [H4 H5].
  split; [exact H1|]. split; [exact H2|]. split; [exact H4|].
  exact (H5 eq_refl).
Defined.

(** C6: saving a [ValueVoucherForm] leaves the instance with
    category = None, apply_to = None and product = None; on a form without
    errors the call returns that instance, stored when [commit] is true. *)
Theorem value_save_nulls (commit : bool) (w : World) :
  Voucher.category (instance (ValueVoucherForm.save commit w).1) = VNone ∧
  Voucher.apply_to (instance (ValueVoucherForm.save commit w).1) = VNone ∧
  Voucher.product (instance (ValueVoucherForm.save commit w).1) = VNone ∧
  (errors (form w) = ∅ →
     (ValueVoucherForm.save commit w).2
       = inr (instance (ValueVoucherForm.save commit w).1) ∧
     (commit = true →
        instance (ValueVoucherForm.save commit w).1
          ∈ vouchers (ValueVoucherForm.save commit w).1)).
Proof.
  pose proof (form_save_nullable Value commit w) as Hn.
  rewrite (construct_instance_nullable Value), assigned_nullable in Hn.
  cbn [form_save] in Hn.
  split; [|split; [|split]].
  - destruct (validated w); by apply nullable_inv in Hn as (-> & _).
  - destruct (validated w); by apply nullable_inv in Hn as (_ & _ & _ & ->).
  - destruct (validated w); by apply nullable_inv in Hn as (_ & -> & _).
  - apply (form_save_result Value).
Qed.

Lemma value_save_nulls_witness :
  Voucher.category (instance (ValueVoucherForm.save true category_world).1) = VNone ∧
  Voucher.apply_to (instance (ValueVoucherForm.save true category_world).1) = VNone ∧
  Voucher.product (instance (ValueVoucherForm.save true category_world).1) = VNone ∧
  (ValueVoucherForm.save true category_world).2
    = inr (instance (ValueVoucherForm.save true category_world).1) ∧
  instance (ValueVoucherForm.save true category_world).1
    ∈ vouchers (ValueVoucherForm.save true category_world).1.
Proof.
  destruct (value_save_nulls true category_world) as (H1 & H2 & H3 & H4).
  destruct (H4 eq_refl) as [H5 H6].
  split; [exact H1|]. split; [exact H2|]. split; [exact H3|].
  split; [exact H5|]. exact (H6 eq_refl).
Defined.

(** Validation writes only the form's own fields: the discount value type
    of the instance is not one of them. *)
Lemma construct_instance_discount_value_type
    (fields : list string) (cleaned : gmap string PyVal) (v : Voucher.t) :
  Voucher.discount_value_type (construct_instance fields cleaned v)
  = Voucher.discount_value_type v.
Proof. apply construct_instance_id_code_type. Qed.





(** Counting the attributes that are set, one by one. *)
Lemma count_set_sum (v : Voucher.t) :
  count_set v = (is_set (Voucher.category v) + is_set (Voucher.product v)
                 + is_set (Voucher.limit v) + is_set (Voucher.apply_to v))%nat.
Proof.
  unfold count_set.
  destruct (Voucher.category v), (Voucher.product v), (Voucher.limit v),
    (Voucher.apply_to v); reflexivity.
Qed.

Lemma is_set_le_1 (x : PyVal) : (is_set x ≤ 1)%nat.
Proof. destruct x; cbn; lia. Qed.

Lemma counts_of_nullable (v : Voucher.t) (c p l a : PyVal) :
  Voucher.nullable v = (c, p, l, a) →
  count_target v = (is_set c + is_set p + is_set l)%nat ∧
  count_set v = (is_set c + is_set p + is_set l + is_set a)%nat.
Proof.
  intros (<- & <- & <- & <-)%nullable_inv. split; [reflexivity|].
  apply count_set_sum.
Qed.

Ltac bound_sets :=
  change (is_set VNone) with 0%nat;
  repeat match goal with
         | |- context [is_set ?x] =>
             generalize (is_set_le_1 x); generalize (is_set x); intros ? ?
         end.

(** C3, as stated, fails: a shipping voucher form submitted with both a
    country and a minimum order value saves an instance on which apply_to
    and limit are both set. *)
Lemma at_most_one_set_counterexample :
  ¬ (∀ (k : VoucherFormClass) (commit : bool) (w : World),
       (count_set (instance (form_save k commit (post_clean (form_fields k) w)).1)
        ≤ 1)%nat).
Proof.
  intros H. specialize (H Shipping true shipping_world).
  vm_compute in H. lia.
Qed.

(** A category voucher form saved without having been validated, on a
    voucher that has a product: validation inside the base [save] writes
    category and apply_to after the hook, and three attributes are set. *)
Example unvalidated_category_save :
  validated category_world = false ∧
  Voucher.nullable (instance (CategoryVoucherForm.save true category_world).1)
  = (VRef 7, VRef 3, VNone, VStr "").
Proof. split; reflexivity. Qed.

(** C3, amended: after saving any of the four specialisation forms that
    was validated before the save (and a shipping, value or product form
    also when [save] itself validates it), at most one of category,
    product and limit is not None, apply_to may be set beside it, so at
    most two of the four are; after saving a [ValueVoucherForm] at most one
    of the four is. *)
Theorem save_at_most_one_target (k : VoucherFormClass) (commit : bool) (w : World) :
  validated w = true ∨ k ≠ Category →
  (count_target (instance (form_save k commit w).1) ≤ 1)%nat ∧
  (count_set (instance (form_save k commit w).1) ≤ 2)%nat ∧
  (count_set (instance (ValueVoucherForm.save commit w).1) ≤ 1)%nat.
Proof.
  intros Hk.
  pose proof (form_save_nullable k commit w) as Hn.
  pose proof (form_save_nullable Value commit w) as Hv.
  rewrite unvalidated_nullable, assigned_nullable in Hn.
  rewrite (unvalidated_nullable Value), (assigned_nullable Value) in Hv.
  cbn [form_save] in Hv. cbv zeta in Hn.
  split; [|split].
  - destruct (validated w), k; try (destruct Hk as [Hk | Hk]; done);
      apply counts_of_nullable in Hn as [-> _]; bound_sets; lia.
  - destruct (validated w), k; try (destruct Hk as [Hk | Hk]; done);
      apply counts_of_nullable in Hn as [_ ->]; bound_sets; lia.
  - destruct (validated w);
      apply counts_of_nullable in Hv as [_ ->]; bound_sets; lia.
Qed.

Lemma save_at_most_one_target_witness :
  (count_target (instance (form_save Shipping true shipping_world).1) ≤ 1)%nat ∧
  (count_set (instance (form_save Shipping true shipping_world).1) ≤ 2)%nat ∧
  (count_set (instance (ValueVoucherForm.save true shipping_world).1) ≤ 1)%nat.
Proof.
  apply (save_at_most_one_target Shipping true shipping_world).
  right. discriminate.
Defined.

(** C4 fails on [CategoryVoucherForm]: on a validated form its inherited
    [save] sets category = None on every instance, so the category the form
    requires is discarded, and it leaves product as it was instead of
    nulling it.  On the stored product voucher of [category_world],
    submitted with category 7, validation puts category 7 on the instance
    and [save] then returns and stores it with category None and
    product 3. *)
Theorem category_save_discards_category :
  (∀ (commit : bool) (f : Form) (v : Voucher.t) (tbl : list Voucher.t),
     Voucher.category
       (instance (CategoryVoucherForm.save commit (mkWorld f v tbl true)).1) = VNone ∧
     Voucher.product
       (instance (CategoryVoucherForm.save commit (mkWorld f v tbl true)).1)
       = Voucher.product v) ∧
  (∀ (commit : bool) (w : World),
     Voucher.category
       (instance (CategoryVoucherForm.save commit
                    (post_clean CategoryVoucherForm.fields w)).1) = VNone ∧
     Voucher.product
       (instance (CategoryVoucherForm.save commit
                    (post_clean CategoryVoucherForm.fields w)).1)
       = Voucher.product (instance w)) ∧
  cleaned_data (form category_world) !! "category" = Some (VRef 7) ∧
  Voucher.category (instance (post_clean CategoryVoucherForm.fields category_world))
    = VRef 7 ∧
  (CategoryVoucherForm.save true
     (post_clean CategoryVoucherForm.fields category_world)).2
    = inr (Voucher.mk (Some 1%Z) "SPRING" Voucher.DISCOUNT_VALUE_FIXED
                      VNone (VRef 3) VNone (VStr "")) ∧
  vouchers (CategoryVoucherForm.save true
              (post_clean CategoryVoucherForm.fields category_world)).1
    = [Voucher.mk (Some 1%Z) "SPRING" Voucher.DISCOUNT_VALUE_FIXED
                  VNone (VRef 3) VNone (VStr "")].
Proof.
  split; [|split].
  - intros commit f v tbl.
    pose proof (form_save_nullable Category commit (mkWorld f v tbl true)) as Hn.
    cbn [validated instance form_save] in Hn. rewrite assigned_nullable in Hn.
    by apply nullable_inv in Hn as (-> & -> & _).
  - intros commit w.
    pose proof (form_save_nullable Category commit
                  (post_clean CategoryVoucherForm.fields w)) as Hn.
    cbn [validated post_clean instance form_save] in Hn.
    rewrite assigned_nullable in Hn.
    apply nullable_inv in Hn as (-> & -> & _). split; [reflexivity|].
    pose proof (construct_instance_nullable Category (cleaned_data (form w))
                  (instance w)) as Hc.
    by apply nullable_inv in Hc as (_ & Hc & _).
  - repeat split; reflexivity.
Qed.

(** ** [country_choices] *)

Lemma dict_onto_lookup (pairs : list (string * string)) (m : gmap string string)
    (k v : string) :
  foldl (λ m kv, <[kv.1 := kv.2]> m) m pairs !! k = Some v →
  (k, v) ∈ pairs ∨ m !! k = Some v.
Proof.
  revert m. induction pairs as [|[k' v'] pairs IH]; intros m H; cbn in *.
  - by right.
  - destruct (IH _ H) as [Hin | Hm].
    + left. by apply list_elem_of_further.
    + destruct (decide (k' = k)) as [-> | Hne].
      * rewrite lookup_insert_eq in Hm. injection Hm as ->.
        left. apply list_elem_of_here.
      * rewrite lookup_insert_ne in Hm by done. by right.
Qed.

Lemma dict_onto_is_Some (pairs : list (string * string)) (m : gmap string string)
    (k : string) :
  is_Some (foldl (λ m kv, <[kv.1 := kv.2]> m) m pairs !! k) ↔
  k ∈ pairs.*1 ∨ is_Some (m !! k).
Proof.
  revert m. induction pairs as [|[k' v'] pairs IH]; intros m; cbn.
  - split; [by right | intros [H | H]; [by apply elem_of_nil in H | done]].
  - rewrite IH. destruct (decide (k' = k)) as [-> | Hne].
    + rewrite lookup_insert_eq. split; intros _.
      * left. apply list_elem_of_here.
      * right. by eexists.
    + rewrite lookup_insert_ne by done. rewrite elem_of_cons.
      split; intros [H | H]; auto.
      destruct H as [H | H]; [congruence | auto].
Qed.

(** A name found in [dict(pairs)] is paired with its key in [pairs]. *)
Lemma dict_lookup_Some (pairs : list (string * string)) (k v : string) :
  dict pairs !! k = Some v → (k, v) ∈ pairs.
Proof.
  intros H. destruct (dict_onto_lookup pairs ∅ k v H) as [Hin | He]; [done|].
  by rewrite lookup_empty in He.
Qed.

(** The keys of [dict(pairs)] are the first components of [pairs]. *)
Lemma dict_is_Some (pairs : list (string * string)) (k : string) :
  is_Some (dict pairs !! k) ↔ k ∈ pairs.*1.
Proof.
  unfold dict. rewrite dict_onto_is_Some. rewrite lookup_empty.
  split; [intros [H | H]; [done | by destruct H] | by left].
Qed.

Lemma comprehension_inr {A B} (f : A → PyExc + B) (xs : list A) (ys : list B) :
  comprehension f xs = inr ys → Forall2 (λ x y, f x = inr y) xs ys.
Proof.
  revert ys. induction xs as [|x xs IH]; intros ys H; cbn in H.
  - injection H as <-. constructor.
  - destruct (f x) as [e | y] eqn:Hx; [discriminate|].
    destruct (comprehension f xs) as [e | ys'] eqn:Hxs; [discriminate|].
    injection H as <-. constructor; [exact Hx | by apply IH].
Qed.

Lemma comprehension_total {A B} (f : A → PyExc + B) (xs : list A) :
  (∀ x, x ∈ xs → ∃ y, f x = inr y) → ∃ ys, comprehension f xs = inr ys.
Proof.
  induction xs as [|x xs IH]; intros H; cbn.
  - by eexists.
  - destruct (H x) as [y Hy]; [apply list_elem_of_here|]. rewrite Hy.
    destruct IH as [ys Hys].
    + intros x' Hx'. apply H. by apply list_elem_of_further.
    + rewrite Hys. by eexists.
Qed.

Lemma comprehension_inl {A B} (f : A → PyExc + B) (xs : list A) (x : A) (e : PyExc) :
  x ∈ xs → f x = inl e → ∃ x' e', x' ∈ xs ∧ f x' = inl e' ∧ comprehension f xs = inl e'.
Proof.
  induction xs as [|x0 xs IH]; intros Hin Hx; [by apply elem_of_nil in Hin|].
  cbn. destruct (f x0) as [e0 | y0] eqn:H0.
  - exists x0, e0. split; [apply list_elem_of_here | done].
  - apply elem_of_cons in Hin as [-> | Hin]; [congruence|].
    destruct (IH Hin Hx) as (x' & e' & Hin' & Hx' & Hc).
    exists x', e'. rewrite Hc. split; [by apply list_elem_of_further | done].
Qed.

Lemma distinct_country_codes_elem (tbl : list ShippingMethodCountry.t) (c : string) :
  c ∈ distinct_country_codes tbl ↔ c ∈ map ShippingMethodCountry.country_code tbl.
Proof. unfold distinct_country_codes. apply elem_of_remove_dups. Qed.

Section CountryChoices.
Variable COUNTRY_CODE_CHOICES : list (string * string).

(** C8: when [country_choices()] returns, the codes of the returned pairs
    are the distinct country codes of the [ShippingMethodCountry] rows:
    each occurs in the table, each code of the table occurs, none occurs
    twice; and each code is paired with the name [dict(COUNTRY_CODE_CHOICES)]
    gives it, a pair of the static table. *)
Theorem country_choices_spec (tbl : list ShippingMethodCountry.t)
    (res : list (string * string)) :
  country_choices COUNTRY_CODE_CHOICES tbl = inr res →
  res.*1 = distinct_country_codes tbl ∧
  NoDup res.*1 ∧
  (∀ c, c ∈ res.*1 ↔ c ∈ map ShippingMethodCountry.country_code tbl) ∧
  (∀ c name, (c, name) ∈ res →
     dict COUNTRY_CODE_CHOICES !! c = Some name ∧
     (c, name) ∈ COUNTRY_CODE_CHOICES).
Proof.
  unfold country_choices. intros H. apply comprehension_inr in H.
  assert (Hfst : res.*1 = distinct_country_codes tbl).
  { induction H as [|c [c' name] cs res Hc _ IH]; [reflexivity|].
    cbn. rewrite IH. f_equal.
    unfold dict_getitem in Hc. destruct (_ !! c); congruence. }
  split; [exact Hfst|]. split; [|split].
  - rewrite Hfst. apply NoDup_remove_dups.
  - intros c. rewrite Hfst. apply distinct_country_codes_elem.
  - intros c name Hin.
    apply list_elem_of_lookup in Hin as [i Hi].
    destruct (Forall2_lookup_r _ _ _ _ _ H Hi) as (c0 & _ & Hc).
    unfold dict_getitem in Hc.
    destruct (dict COUNTRY_CODE_CHOICES !! c0) as [n|] eqn:Hd; [|discriminate].
    injection Hc as -> ->. split; [exact Hd | by apply dict_lookup_Some].
Qed.

(** C10: [country_choices()] returns when every country code stored in
    [ShippingMethodCountry] is a key of [COUNTRY_CODE_CHOICES]; when some
    stored code is not a key, it raises KeyError on a stored code that is
    not a key. *)
Theorem country_choices_total_iff (tbl : list ShippingMethodCountry.t) :
  ((∀ c, c ∈ map ShippingMethodCountry.country_code tbl →
         c ∈ (COUNTRY_CODE_CHOICES.*1)) →
   ∃ res, country_choices COUNTRY_CODE_CHOICES tbl = inr res) ∧
  (∀ c, c ∈ map ShippingMethodCountry.country_code tbl →
        c ∉ (COUNTRY_CODE_CHOICES.*1) →
   ∃ c', c' ∈ map ShippingMethodCountry.country_code tbl ∧
         (c' ∉ COUNTRY_CODE_CHOICES.*1) ∧
         country_choices COUNTRY_CODE_CHOICES tbl = inl (KeyError c')).
Proof.
  unfold country_choices. split.
  - intros H. apply comprehension_total. intros c Hc.
    apply distinct_country_codes_elem, H, dict_is_Some in Hc as [name Hn].
    exists (c, name). unfold dict_getitem. by rewrite Hn.
  - intros c Hc Hnk.
    apply distinct_country_codes_elem in Hc.
    assert (Hnone : dict COUNTRY_CODE_CHOICES !! c = None).
    { apply eq_None_not_Some. by rewrite dict_is_Some. }
    edestruct (comprehension_inl
                 (λ country_code,
                    match dict_getitem (dict COUNTRY_CODE_CHOICES) country_code with
                    | inl e => inl e
                    | inr name => inr (country_code, name)
                    end) _ c (KeyError c) Hc) as (c' & e' & Hin' & Hf' & Hres).
    { unfold dict_getitem. by rewrite Hnone. }
    unfold dict_getitem in Hf'.
    destruct (dict COUNTRY_CODE_CHOICES !! c') as [n|] eqn:Hd; [discriminate|].
    injection Hf' as <-. exists c'. split; [|split].
    + by apply distinct_country_codes_elem.
    + rewrite <- dict_is_Some, Hd. by intros [? ?].
    + exact Hres.
Qed.
End CountryChoices.

Lemma country_choices_spec_witness :
  [("US", "United States of America"); ("PL", "Poland")].*1
    = distinct_country_codes sample_countries ∧
  NoDup [("US", "United States of America"); ("PL", "Poland")].*1 ∧
  (∀ c, c ∈ [("US", "United States of America"); ("PL", "Poland")].*1 ↔
        c ∈ map ShippingMethodCountry.country_code sample_countries) ∧
  (∀ c name, (c, name) ∈ [("US", "United States of America"); ("PL", "Poland")] →
     dict sample_choices !! c = Some name ∧ (c, name) ∈ sample_choices).
Proof.
  apply (country_choices_spec sample_choices sample_countries). reflexivity.
Defined.

Lemma country_choices_total_iff_witness :
  (∃ res, country_choices sample_choices sample_countries = inr res) ∧
  (∃ c', c' ∈ map ShippingMethodCountry.country_code unlisted_countries ∧
         (c' ∉ sample_choices.*1) ∧
         country_choices sample_choices unlisted_countries = inl (KeyError c')).
Proof.
  split.
  - apply (proj1 (country_choices_total_iff sample_choices sample_countries)).
    intros c Hc. cbn in Hc. cbn.
    repeat (apply elem_of_cons in Hc as [-> | Hc]);
      [ do 1 apply list_elem_of_further; apply list_elem_of_here
      | do 2 apply list_elem_of_further; apply list_elem_of_here
      | do 1 apply list_elem_of_further; apply list_elem_of_here
      | by apply elem_of_nil in Hc ].
  - apply (proj2 (country_choices_total_iff sample_choices unlisted_countries) "XX").
    + cbn. apply list_elem_of_further, list_elem_of_here.
    + cbn. intros Hin.
      repeat (apply elem_of_cons in Hin as [Hin | Hin]; [discriminate|]).
      by apply elem_of_nil in Hin.
Defined.

(** ** [VoucherForm._generate_code] *)

Lemma str_append_cons (c : ascii) (s1 s2 : string) :
  String c s1 +:+ s2 = String c (s1 +:+ s2).
Proof. reflexivity. Qed.

Lemma str_append_nil (s : string) : "" +:+ s = s.
Proof. reflexivity. Qed.

Lemma str_length_append (s1 s2 : string) :
  String.length (s1 +:+ s2) = (String.length s1 + String.length s2)%nat.
Proof.
  induction s1 as [|c s1 IH]; [reflexivity|].
  rewrite str_append_cons. cbn. by f_equal.
Qed.

Lemma str_append_assoc (s1 s2 s3 : string) :
  (s1 +:+ s2) +:+ s3 = s1 +:+ (s2 +:+ s3).
Proof.
  induction s1 as [|c s1 IH]; [reflexivity|].
  rewrite !str_append_cons. by f_equal.
Qed.

Lemma str_all_append (p : ascii → bool) (s1 s2 : string) :
  Str.all p (s1 +:+ s2) = Str.all p s1 && Str.all p s2.
Proof.
  induction s1 as [|c s1 IH]; [reflexivity|].
  rewrite str_append_cons. cbn. rewrite IH. by rewrite andb_assoc.
Qed.

Lemma str_all_substring (p : ascii → bool) (a m : nat) (s : string) :
  Str.all p s = true → Str.all p (String.substring a m s) = true.
Proof.
  revert a m. induction s as [|c s IH]; intros a m H.
  - destruct a, m; exact H.
  - cbn in H. apply andb_true_iff in H as [Hc Hs].
    destruct a as [|a]; [destruct m as [|m]|]; cbn.
    + reflexivity.
    + rewrite Hc. cbn. by apply IH.
    + by apply IH.
Qed.

Lemma str_length_substring (a m : nat) (s : string) :
  (a + m ≤ String.length s)%nat → String.length (String.substring a m s) = m.
Proof.
  revert a m. induction s as [|c s IH]; intros a m H; cbn in H.
  - assert (a = 0 ∧ m = 0)%nat as [-> ->] by lia. reflexivity.
  - destruct a as [|a]; [destruct m as [|m]|]; cbn.
    + reflexivity.
    + f_equal. apply IH. lia.
    + apply IH. lia.
Qed.

Lemma str_all_impl (p q : ascii → bool) (s : string) :
  (∀ c, p c = true → q c = true) → Str.all p s = true → Str.all q s = true.
Proof.
  intros Hpq. induction s as [|c s IH]; cbn; [done|].
  intros [Hc Hs]%andb_true_iff. rewrite (Hpq c Hc). by apply IH.
Qed.

Lemma replace_append (old : ascii) (new s1 s2 : string) :
  Str.replace old new (s1 +:+ s2)
  = Str.replace old new s1 +:+ Str.replace old new s2.
Proof.
  induction s1 as [|c s1 IH]; [reflexivity|].
  rewrite str_append_cons. cbn. rewrite IH.
  destruct (Ascii.eqb c old); [|reflexivity].
  by rewrite str_append_assoc.
Qed.

Lemma replace_absent (old : ascii) (new s : string) :
  Str.all (λ c, negb (Ascii.eqb c old)) s = true → Str.replace old new s = s.
Proof.
  induction s as [|c s IH]; cbn; [reflexivity|].
  intros [Hc Hs]%andb_true_iff. apply negb_true_iff in Hc. rewrite Hc.
  by rewrite IH.
Qed.

Lemma upper_length (s : string) : String.length (Str.upper s) = String.length s.
Proof. induction s as [|c s IH]; cbn; [reflexivity | by rewrite IH]. Qed.

Lemma upper_all (p q : ascii → bool) (s : string) :
  (∀ c, p c = true → q (Str.upper_char c) = true) →
  Str.all p s = true → Str.all q (Str.upper s) = true.
Proof.
  intros Hpq. induction s as [|c s IH]; cbn; [done|].
  intros [Hc Hs]%andb_true_iff. rewrite (Hpq c Hc). by apply IH.
Qed.

(** What the three string operations rely on, character by character. *)
Lemma lower_hex_not_dash (c : ascii) :
  Str.is_lower_hex c = true → negb (Ascii.eqb c "-") = true.
Proof.
  destruct c as [[] [] [] [] [] [] [] []]; vm_compute; congruence.
Qed.

Lemma lower_hex_upper (c : ascii) :
  Str.is_lower_hex c = true → Str.is_upper_alnum (Str.upper_char c) = true.
Proof.
  destruct c as [[] [] [] [] [] [] [] []]; vm_compute; congruence.
Qed.

Lemma hexdigit_lower_hex (d : N) : Str.is_lower_hex (uuid.hexdigit d) = true.
Proof.
  destruct d as [|p]; [reflexivity|].
  do 4 (try destruct p as [p|p|]); reflexivity.
Qed.

Lemma hex_onto_all (width : nat) (n : N) (acc : string) :
  Str.all Str.is_lower_hex acc = true →
  Str.all Str.is_lower_hex (uuid.hex_onto width n acc) = true.
Proof.
  revert n acc. induction width as [|w IH]; intros n acc H; cbn; [exact H|].
  apply IH. cbn. by rewrite hexdigit_lower_hex.
Qed.

Lemma hex_onto_length (width : nat) (n : N) (acc : string) :
  String.length (uuid.hex_onto width n acc) = (width + String.length acc)%nat.
Proof.
  revert n acc. induction width as [|w IH]; intros n acc; cbn; [reflexivity|].
  rewrite IH. cbn. lia.
Qed.

Lemma hex32_all (n : N) : Str.all Str.is_lower_hex (uuid.hex32 n) = true.
Proof. by apply hex_onto_all. Qed.

Lemma hex32_length (n : N) : String.length (uuid.hex32 n) = 32%nat.
Proof. unfold uuid.hex32. by rewrite hex_onto_length. Qed.

Lemma slice_all (a b : nat) (n : N) :
  Str.all Str.is_lower_hex (Str.slice a b (uuid.hex32 n)) = true.
Proof. apply str_all_substring, hex32_all. Qed.

Lemma slice_no_dash (a b : nat) (n : N) :
  Str.replace "-" "" (Str.slice a b (uuid.hex32 n)) = Str.slice a b (uuid.hex32 n).
Proof.
  apply replace_absent.
  apply (str_all_impl Str.is_lower_hex); [apply lower_hex_not_dash | apply slice_all].
Qed.

Lemma slice_length (a b : nat) (n : N) :
  (a ≤ b)%nat → (b ≤ 32)%nat → String.length (Str.slice a b (uuid.hex32 n)) = (b - a)%nat.
Proof.
  intros Hab Hb. apply str_length_substring. rewrite hex32_length. lia.
Qed.

(** [str(u).replace('-', '')]: the five groups without the hyphens. *)
Lemma str_replace_dashes (u : N) :
  Str.replace "-" "" (uuid.str u)
  = Str.slice 0 8 (uuid.hex32 u) +:+ Str.slice 8 12 (uuid.hex32 u) +:+
    Str.slice 12 16 (uuid.hex32 u) +:+ Str.slice 16 20 (uuid.hex32 u) +:+
    Str.slice 20 32 (uuid.hex32 u).
Proof.
  unfold uuid.str. cbv zeta.
  rewrite !replace_append, !slice_no_dash. reflexivity.
Qed.

Lemma undashed_length (u : N) :
  String.length (Str.upper (Str.replace "-" "" (uuid.str u))) = 32%nat.
Proof.
  rewrite upper_length, str_replace_dashes, !str_length_append.
  rewrite !slice_length by lia. reflexivity.
Qed.

Lemma undashed_all (u : N) :
  Str.all Str.is_upper_alnum (Str.upper (Str.replace "-" "" (uuid.str u))) = true.
Proof.
  apply (upper_all Str.is_lower_hex); [apply lower_hex_upper|].
  rewrite str_replace_dashes, !str_all_append, !slice_all. reflexivity.
Qed.

(** Each turn of the loop computes twelve upper-case alphanumerics. *)
Lemma candidate_shape (r : N) :
  String.length (VoucherForm.candidate r) = 12%nat ∧
  Str.all Str.is_upper_alnum (VoucherForm.candidate r) = true.
Proof.
  unfold VoucherForm.candidate, Str.slice. split.
  - apply str_length_substring. rewrite undashed_length. lia.
  - apply str_all_substring, undashed_all.
Qed.

Lemma code_exists_false (tbl : list Voucher.t) (c : string) :
  Voucher.code_exists tbl c = false ↔ c ∉ map Voucher.code tbl.
Proof.
  unfold Voucher.code_exists. induction tbl as [|r tbl IH]; cbn.
  - split; [intros _; apply not_elem_of_nil | done].
  - rewrite orb_false_iff, IH, not_elem_of_cons, String.eqb_neq.
    split; intros [H1 H2]; split; auto.
Qed.

(** C2: a code returned by [_generate_code] is 12 characters long, made of
    upper-case alphanumerics only, and is the code of no voucher in the
    table the loop checked against.  The loop does return as soon as a
    draw leads to a code that is not taken. *)
Theorem generate_code_spec (tbl : list Voucher.t) (rnd : list N) :
  (∀ code rnd',
     VoucherForm._generate_code tbl rnd = Some (code, rnd') →
     String.length code = 12%nat ∧
     Str.all Str.is_upper_alnum code = true ∧
     code ∉ map Voucher.code tbl) ∧
  ((∃ r, r ∈ rnd ∧ VoucherForm.candidate r ∉ map Voucher.code tbl) →
   ∃ code rnd', VoucherForm._generate_code tbl rnd = Some (code, rnd')).
Proof.
  split.
  - induction rnd as [|r rnd IH]; intros code rnd' H; cbn in H; [discriminate|].
    destruct (Voucher.code_exists tbl (VoucherForm.candidate r)) eqn:Hex; cbn in H.
    + by apply (IH code rnd').
    + injection H as <- <-.
      destruct (candidate_shape r) as [Hlen Hall].
      split; [exact Hlen|]. split; [exact Hall|].
      by apply code_exists_false.
  - intros (r & Hin & Hfree).
    induction rnd as [|r0 rnd IH]; [by apply elem_of_nil in Hin|].
    cbn. destruct (Voucher.code_exists tbl (VoucherForm.candidate r0)) eqn:Hex; cbn.
    + apply IH. apply elem_of_cons in Hin as [-> | Hin]; [|exact Hin].
      apply code_exists_false in Hfree. congruence.
    + by eexists _, _.
Qed.

Lemma generate_code_spec_witness :
  (String.length "FEDCBA987654" = 12%nat ∧
   Str.all Str.is_upper_alnum "FEDCBA987654" = true ∧
   "FEDCBA987654" ∉ map Voucher.code taken_codes) ∧
  ∃ code rnd', VoucherForm._generate_code taken_codes two_draws = Some (code, rnd').
Proof.
  split.
  - apply (proj1 (generate_code_spec taken_codes two_draws) "FEDCBA987654" []).
    reflexivity.
  - apply (proj2 (generate_code_spec taken_codes two_draws)).
    exists 0xfedcba9876543210fedcba9876543210%N. split.
    + apply list_elem_of_further, list_elem_of_here.
    + apply code_exists_false. reflexivity.
Defined.

(** * Further properties *)

(** ** [SaleForm.clean], beyond the percentage rule *)

(** X1: a sale whose type is not PERCENTAGE is never rejected by [clean]:
    whatever is stored under 'value' (it is not even compared), the form
    and its cleaned data come back unchanged. *)
Theorem clean_other_type (f : Form) (t x : PyVal) :
  cleaned_data f !! "type" = Some t →
  py_eq t (VStr Sale.PERCENTAGE) = false →
  cleaned_data f !! "value" = Some x →
  SaleForm.clean f = (f, inr (cleaned_data f)).
Proof.
  intros Ht Hne Hx. run_clean. rewrite Ht, Hx. cbn. rewrite Hne. reflexivity.
Qed.

Lemma clean_other_type_witness :
  SaleForm.clean fixed_sale_form = (fixed_sale_form, inr (cleaned_data fixed_sale_form)).
Proof.
  apply (clean_other_type fixed_sale_form (VStr Sale.FIXED) (VDec (500 # 1)));
    reflexivity.
Defined.

(** [clean] either leaves the form alone or adds the one message. *)
Lemma clean_form_cases (f : Form) :
  (SaleForm.clean f).1 = f ∨
  (SaleForm.clean f).1 = (add_error "value" SaleForm.exceed_msg f).1.
Proof.
  run_clean. destruct (cleaned_data f !! "type") as [t|]; cbn; [|by left].
  destruct (cleaned_data f !! "value") as [x|]; cbn; [|by left].
  destruct (py_eq t (VStr Sale.PERCENTAGE)); cbn; [|by left].
  destruct x; cbn; try by left.
  destruct (negb (Qle_bool d (inject_Z 100))); cbn; [by right | by left].
Qed.

(** X2: whatever the outcome (return or exception), [clean] changes
    nothing but the 'value' field: the errors and the cleaned data of every
    other field are as before, and errors already recorded for 'value' are
    kept in front of what [clean] adds. *)
Theorem clean_only_touches_value (f : Form) :
  (∀ field, field ≠ "value" →
     errors (SaleForm.clean f).1 !! field = errors f !! field ∧
     cleaned_data (SaleForm.clean f).1 !! field = cleaned_data f !! field) ∧
  default [] (errors f !! "value")
    `prefix_of` default [] (errors (SaleForm.clean f).1 !! "value").
Proof.
  destruct (clean_form_cases f) as [-> | ->].
  - split; [done|]. reflexivity.
  - cbn. split.
    + intros field Hne.
      rewrite lookup_insert_ne, lookup_delete_ne by done. done.
    + rewrite lookup_insert_eq. cbn. by apply prefix_app_r.
Qed.

(** X3: once [clean] has rejected a percentage above 100, the value is gone
    from the cleaned data: running [clean] again on the form raises
    KeyError('value') and adds no second message. *)
Theorem clean_again_key_error (f : Form) (v : Q) :
  cleaned_data f !! "type" = Some (VStr Sale.PERCENTAGE) →
  cleaned_data f !! "value" = Some (VDec v) →
  (100 < v)%Q →
  SaleForm.clean (SaleForm.clean f).1
    = ((SaleForm.clean f).1, inl (KeyError "value")) ∧
  (SaleForm.clean f).1 ≠ f.
Proof.
  intros Ht Hv Hgt.
  assert (Hf : (SaleForm.clean f).1 = (add_error "value" SaleForm.exceed_msg f).1).
  { run_clean. rewrite Ht, Hv. cbn. rewrite (gt_100_true v Hgt). reflexivity. }
  rewrite Hf. split.
  - run_clean. rewrite lookup_delete_ne by discriminate. rewrite Ht.
    rewrite lookup_delete_eq. reflexivity.
  - cbn. intros Heq. apply (f_equal (λ g, cleaned_data g !! "value")) in Heq.
    cbn in Heq. rewrite lookup_delete_eq, Hv in Heq. discriminate.
Qed.

Lemma clean_again_key_error_witness :
  SaleForm.clean (SaleForm.clean (sale_form (150 # 1))).1
    = ((SaleForm.clean (sale_form (150 # 1))).1, inl (KeyError "value")) ∧
  (SaleForm.clean (sale_form (150 # 1))).1 ≠ sale_form (150 # 1).
Proof.
  apply (clean_again_key_error (sale_form (150 # 1)) (150 # 1));
    reflexivity.
Defined.

Lemma clean_only_touches_value_witness :
  errors (SaleForm.clean (sale_form (150 # 1))).1 !! "type"
    = errors (sale_form (150 # 1)) !! "type" ∧
  cleaned_data (SaleForm.clean (sale_form (150 # 1))).1 !! "type"
    = cleaned_data (sale_form (150 # 1)) !! "type".
Proof.
  apply (proj1 (clean_only_touches_value (sale_form (150 # 1))) "type").
  discriminate.
Defined.

(** ** [VoucherForm.__init__] *)

(** X4: [__init__] never replaces a code the caller supplied, never touches
    the initial data of a voucher that is already stored, and does nothing
    without an instance: in each case the initial data handed on are the
    caller's (an empty dict when none was passed). *)
Theorem init_keeps_initial (kwargs : Kwargs) :
  init_code_given (default ∅ (kw_initial kwargs)) = true ∨
  (∃ v pk, kw_instance kwargs = Some v ∧ Voucher.id v = Some pk) ∨
  kw_instance kwargs = None →
  VoucherForm__init__ kwargs
    = mkKwargs (Some (default ∅ (kw_initial kwargs))) (kw_instance kwargs).
Proof.
  unfold VoucherForm__init__. intros [Hc | [(v & pk & -> & Hid) | ->]].
  - rewrite Hc. destruct (kw_instance kwargs); [|reflexivity].
    by rewrite andb_false_r.
  - rewrite Hid. reflexivity.
  - reflexivity.
Qed.

Lemma init_keeps_initial_witness :
  VoucherForm__init__ stored_voucher_kwargs
    = mkKwargs (Some {[ "name" := IVal (VStr "Spring") ]})
               (kw_instance stored_voucher_kwargs).
Proof.
  apply (init_keeps_initial stored_voucher_kwargs).
  right. left. eexists _, 1%Z. split; reflexivity.
Defined.

(** X5: for an instance that is not stored yet (id is None) and no code in
    the initial data (no entry, None or the empty string), [__init__] puts
    the method [_generate_code] itself under 'code', to be called when the
    form needs the value, and leaves every other entry alone. *)
Theorem init_new_voucher (kwargs : Kwargs) (v : Voucher.t) :
  kw_instance kwargs = Some v →
  Voucher.id v = None →
  init_code_given (default ∅ (kw_initial kwargs)) = false →
  ∃ initial,
    VoucherForm__init__ kwargs = mkKwargs (Some initial) (Some v) ∧
    initial !! "code" = Some IGenerateCode ∧
    ∀ key, key ≠ "code" → initial !! key = default ∅ (kw_initial kwargs) !! key.
Proof.
  intros Hi Hid Hc. unfold VoucherForm__init__. rewrite Hi, Hid, Hc. cbn.
  eexists. split; [reflexivity|]. split.
  - apply lookup_insert_eq.
  - intros key Hne. by rewrite lookup_insert_ne.
Qed.

Lemma init_new_voucher_witness :
  ∃ initial,
    VoucherForm__init__ new_voucher_kwargs
      = mkKwargs (Some initial) (kw_instance new_voucher_kwargs) ∧
    initial !! "code" = Some IGenerateCode ∧
    ∀ key, key ≠ "code" →
           initial !! key = default ∅ (kw_initial new_voucher_kwargs) !! key.
Proof.
  destruct (init_new_voucher new_voucher_kwargs _ eq_refl eq_refl eq_refl)
    as (initial & H1 & H2 & H3).
  exists initial. split; [exact H1|]. split; [exact H2 | exact H3].
Defined.

(** X6: the code a form for a new voucher shows, when none was supplied, is
    a generated one: 12 characters long and the code of no stored
    voucher; for a stored voucher and no initial code the form shows the
    stored code and draws no UUID. *)
Theorem initial_code_of_form (kwargs : Kwargs) (v : Voucher.t)
    (tbl : list Voucher.t) (rnd : list N) :
  kw_instance kwargs = Some v →
  init_code_given (default ∅ (kw_initial kwargs)) = false →
  (Voucher.id v = None →
     ∀ x rnd', initial_code (VoucherForm__init__ kwargs) tbl rnd = Some (x, rnd') →
       ∃ c, x = VStr c ∧ VoucherForm._generate_code tbl rnd = Some (c, rnd') ∧
            String.length c = 12%nat ∧ c ∉ map Voucher.code tbl) ∧
  (∀ pk, Voucher.id v = Some pk →
     default ∅ (kw_initial kwargs) !! "code" = None →
     initial_code (VoucherForm__init__ kwargs) tbl rnd
       = Some (VStr (Voucher.code v), rnd)).
Proof.
  intros Hi Hc. split.
  - intros Hid x rnd' H.
    unfold initial_code, VoucherForm__init__ in H.
    rewrite Hi, Hid, Hc in H. cbn in H. rewrite lookup_insert_eq in H.
    destruct (VoucherForm._generate_code tbl rnd) as [[c r']|] eqn:Hg;
      [|discriminate].
    injection H as <- <-. exists c. split; [reflexivity|]. split; [reflexivity|].
    clear Hi Hc Hid. revert Hg.
    induction rnd as [|r rnd IH]; cbn; [discriminate|].
    destruct (Voucher.code_exists tbl (VoucherForm.candidate r)) eqn:Hex; cbn.
    + exact IH.
    + intros [= <- <-]. split; [apply candidate_shape|].
      by apply code_exists_false.
  - intros pk Hid Hnone.
    unfold initial_code, VoucherForm__init__.
    rewrite Hi, Hid. cbn. rewrite Hnone. reflexivity.
Qed.

Lemma initial_code_of_form_witness :
  (∃ c, VStr "FEDCBA987654" = VStr c ∧
        VoucherForm._generate_code taken_codes two_draws = Some (c, []) ∧
        String.length c = 12%nat ∧ c ∉ map Voucher.code taken_codes) ∧
  initial_code (VoucherForm__init__ stored_voucher_kwargs) taken_codes two_draws
    = Some (VStr "123456789ABC", two_draws).
Proof.
  split.
  - apply (proj1 (initial_code_of_form new_voucher_kwargs _ taken_codes two_draws
                    eq_refl eq_refl) eq_refl).
    reflexivity.
  - apply (proj2 (initial_code_of_form stored_voucher_kwargs _ taken_codes two_draws
                    eq_refl eq_refl) 1%Z); reflexivity.
Defined.

(** ** [VoucherForm._generate_code]: retries and the code space *)

Lemma code_exists_true (tbl : list Voucher.t) (c : string) :
  Voucher.code_exists tbl c = true ↔ c ∈ map Voucher.code tbl.
Proof.
  destruct (Voucher.code_exists tbl c) eqn:Hex.
  - split; [intros _|done].
    destruct (decide (c ∈ map Voucher.code tbl)) as [Hin | Hout]; [done|].
    apply code_exists_false in Hout. congruence.
  - apply code_exists_false in Hex. split; [discriminate | done].
Qed.

(** X7: the loop has no exit but the return: on draws that all lead to
    codes already taken it is still running when they are used up, and
    that is the only way it fails to return. *)
Theorem generate_code_none_iff (tbl : list Voucher.t) (rnd : list N) :
  VoucherForm._generate_code tbl rnd = None ↔
  ∀ r, r ∈ rnd → VoucherForm.candidate r ∈ map Voucher.code tbl.
Proof.
  induction rnd as [|r rnd IH]; cbn.
  - split; [intros _ r Hr; by apply elem_of_nil in Hr | done].
  - destruct (Voucher.code_exists tbl (VoucherForm.candidate r)) eqn:Hex; cbn.
    + rewrite IH. apply code_exists_true in Hex. split.
      * intros H r0 [-> | Hr0]%elem_of_cons; auto.
      * intros H r0 Hr0. apply H. by apply list_elem_of_further.
    + split; [discriminate|]. intros H.
      specialize (H r (list_elem_of_here _ _)).
      apply code_exists_true in H. congruence.
Qed.

Lemma generate_code_none_iff_witness :
  VoucherForm._generate_code taken_codes [0x123456789abcdef0123456789abcdef0%N] = None.
Proof.
  apply (proj2 (generate_code_none_iff taken_codes
                  [0x123456789abcdef0123456789abcdef0%N])).
  intros r [-> | Hr]%elem_of_cons.
  - apply code_exists_true. reflexivity.
  - by apply elem_of_nil in Hr.
Defined.

(** X8: [_generate_code] returns the code of the first draw whose code is
    not taken: it returns [code], leaving the draws [rnd'], exactly when
    the draws are some draws that all collide, then a draw giving [code],
    free in the table, then [rnd']. *)
Theorem generate_code_first_free (tbl : list Voucher.t) (rnd : list N)
    (code : string) (rnd' : list N) :
  VoucherForm._generate_code tbl rnd = Some (code, rnd') ↔
  ∃ skipped r,
    rnd = skipped ++ r :: rnd' ∧
    Forall (λ r0, VoucherForm.candidate r0 ∈ map Voucher.code tbl) skipped ∧
    code = VoucherForm.candidate r ∧
    code ∉ map Voucher.code tbl.
Proof.
  split.
  - induction rnd as [|r0 rnd IH]; cbn; [discriminate|].
    destruct (Voucher.code_exists tbl (VoucherForm.candidate r0)) eqn:Hex; cbn.
    + intros H. destruct (IH H) as (skipped & r & -> & Hall & Hc & Hfree).
      exists (r0 :: skipped), r. split; [reflexivity|].
      split; [|done]. constructor; [by apply code_exists_true | done].
    + intros [= <- <-]. exists [], r0. split; [reflexivity|].
      split; [constructor|]. split; [reflexivity | by apply code_exists_false].
  - intros (skipped & r & -> & Hall & -> & Hfree).
    induction Hall as [|r0 skipped Hr0 _ IH]; cbn.
    + apply code_exists_false in Hfree. by rewrite Hfree.
    + apply code_exists_true in Hr0. by rewrite Hr0.
Qed.

Lemma generate_code_first_free_witness :
  ∃ skipped r,
    two_draws = skipped ++ r :: [] ∧
    Forall (λ r0, VoucherForm.candidate r0 ∈ map Voucher.code taken_codes) skipped ∧
    "FEDCBA987654" = VoucherForm.candidate r ∧
    "FEDCBA987654" ∉ map Voucher.code taken_codes.
Proof.
  apply (proj1 (generate_code_first_free taken_codes two_draws "FEDCBA987654" [])).
  reflexivity.
Defined.

Lemma hex_onto_app (width : nat) (n : N) (acc : string) :
  uuid.hex_onto width n acc = uuid.hex_onto width n "" +:+ acc.
Proof.
  revert n acc. induction width as [|w IH]; intros n acc; cbn; [reflexivity|].
  rewrite (IH _ (String _ acc)), (IH _ (String _ "")).
  by rewrite str_append_assoc.
Qed.

Lemma hex_onto_split (a b : nat) (n : N) (acc : string) :
  uuid.hex_onto (a + b) n acc
  = uuid.hex_onto a (Nat.iter b (λ m, m / 16)%N n) (uuid.hex_onto b n acc).
Proof.
  revert n acc. induction b as [|b IH]; intros n acc.
  - rewrite Nat.add_0_r. reflexivity.
  - rewrite Nat.add_succ_r. cbn [uuid.hex_onto]. rewrite IH.
    by rewrite Nat.iter_succ_r.
Qed.

Lemma iter_div16_20 (n : N) : Nat.iter 20 (λ m, m / 16)%N n = (n / 2 ^ 80)%N.
Proof.
  cbv [Nat.iter nat_rect]. rewrite !N.Div0.div_div. f_equal.
Qed.

(** The 32 digits are the 12 digits of the top 48 bits, then 20 more. *)
Lemma hex32_split (u : N) :
  uuid.hex32 u = uuid.hex_onto 12 (u / 2 ^ 80)%N "" +:+ uuid.hex_onto 20 u "".
Proof.
  unfold uuid.hex32. change 32%nat with (12 + 20)%nat.
  rewrite hex_onto_split, iter_div16_20. apply hex_onto_app.
Qed.

Lemma substring_split (s : string) (a b : nat) :
  String.substring 0 a s +:+ String.substring a b s = String.substring 0 (a + b) s.
Proof.
  revert a. induction s as [|c s IH]; intros a.
  - destruct a, b; reflexivity.
  - destruct a as [|a]; [reflexivity|].
    cbn [String.substring Nat.add]. rewrite str_append_cons. by rewrite IH.
Qed.

Lemma substring_app_len (n : nat) (s1 s2 : string) :
  String.length s1 = n → String.substring 0 n (s1 +:+ s2) = s1.
Proof.
  intros <-. induction s1 as [|c s1 IH]; cbn [String.length].
  - destruct s2; reflexivity.
  - rewrite str_append_cons. cbn [String.substring]. by rewrite IH.
Qed.

Lemma upper_append (s1 s2 : string) :
  Str.upper (s1 +:+ s2) = Str.upper s1 +:+ Str.upper s2.
Proof.
  induction s1 as [|c s1 IH]; [reflexivity|].
  rewrite str_append_cons. cbn [Str.upper]. rewrite str_append_cons.
  by rewrite IH.
Qed.

(** The version and variant bits that [uuid4] sets lie below bit 80. *)
Lemma uuid4_top48 (r : N) : (uuid.uuid4 r / 2 ^ 80)%N = top48 r.
Proof.
  unfold top48, uuid.uuid4. cbv zeta.
  rewrite <- !N.shiftr_div_pow2. apply N.bits_inj. intros i.
  rewrite !N.shiftr_spec by lia.
  assert (Hm : ∀ c, (N.log2 c < 80)%N → N.testbit c (i + 80) = false).
  { intros c Hc. apply N.bits_above_log2. lia. }
  rewrite !N.lor_spec, !N.ldiff_spec, !N.lor_spec, !N.ldiff_spec.
  rewrite (Hm (N.shiftl 0xc000 48)), (Hm (N.shiftl 0x8000 48)),
    (Hm (N.shiftl 0xf000 64)), (Hm (N.shiftl 4 76)) by reflexivity.
  cbn [negb].
  by rewrite !andb_true_r, !orb_false_r.
Qed.

Lemma lower_hex_upper_hex (c : ascii) :
  Str.is_lower_hex c = true → is_upper_hex (Str.upper_char c) = true.
Proof.
  destruct c as [[] [] [] [] [] [] [] []]; vm_compute; congruence.
Qed.

Lemma candidate_top48 (r : N) :
  VoucherForm.candidate r = Str.upper (uuid.hex_onto 12 (top48 r) "").
Proof.
  unfold VoucherForm.candidate. rewrite str_replace_dashes.
  rewrite <- (str_append_assoc (Str.slice 0 8 _) (Str.slice 8 12 _)).
  change (Str.slice 0 8 (uuid.hex32 (uuid.uuid4 r)))
    with (String.substring 0 8 (uuid.hex32 (uuid.uuid4 r))).
  change (Str.slice 8 12 (uuid.hex32 (uuid.uuid4 r)))
    with (String.substring 8 4 (uuid.hex32 (uuid.uuid4 r))).
  rewrite substring_split. cbn [Nat.add].
  rewrite (hex32_split (uuid.uuid4 r)) at 1. rewrite uuid4_top48.
  rewrite (substring_app_len 12) by (by rewrite hex_onto_length).
  rewrite upper_append. unfold Str.slice. cbn [Nat.sub].
  apply substring_app_len. rewrite upper_length. by rewrite hex_onto_length.
Qed.

(** X9: the code computed from a draw is the 12 upper-case hexadecimal
    digits of the top 48 of its 128 random bits: the version and variant
    bits never reach it, two draws that agree on those 48 bits give the
    same code, and every character of a returned code is one of
    [0-9A-F]. *)
Theorem generate_code_top48 (tbl : list Voucher.t) (rnd : list N) :
  (∀ r, VoucherForm.candidate r = Str.upper (uuid.hex_onto 12 (top48 r) "")) ∧
  (∀ r r', top48 r = top48 r' → VoucherForm.candidate r = VoucherForm.candidate r') ∧
  (∀ code rnd', VoucherForm._generate_code tbl rnd = Some (code, rnd') →
     Str.all is_upper_hex code = true).
Proof.
  split; [exact candidate_top48|]. split.
  - intros r r' H. by rewrite !candidate_top48, H.
  - assert (Hc : ∀ r, Str.all is_upper_hex (VoucherForm.candidate r) = true).
    { intros r. rewrite candidate_top48.
      apply (upper_all Str.is_lower_hex); [apply lower_hex_upper_hex|].
      by apply hex_onto_all. }
    induction rnd as [|r rnd IH]; intros code rnd'; cbn; [discriminate|].
    destruct (Voucher.code_exists tbl (VoucherForm.candidate r)); cbn.
    + apply IH.
    + intros [= <- <-]. apply Hc.
Qed.

Lemma generate_code_top48_witness :
  VoucherForm.candidate 0x123456789abcdef0123456789abcdef0%N
    = VoucherForm.candidate 0x123456789abcffffffffffffffffffff%N ∧
  Str.all is_upper_hex "FEDCBA987654" = true.
Proof.
  split.
  - apply (proj1 (proj2 (generate_code_top48 [] []))). reflexivity.
  - apply (proj2 (proj2 (generate_code_top48 taken_codes two_draws))
             "FEDCBA987654" []).
    reflexivity.
Defined.

(** ** [country_choices]: size, repeated rows, repeated keys, failures *)

Lemma remove_dups_length {A} `{EqDecision A} (l : list A) :
  (length (remove_dups l) ≤ length l)%nat.
Proof.
  induction l as [|x l IH]; cbn; [lia|].
  destruct (decide_rel elem_of x l); cbn; lia.
Qed.

Lemma comprehension_inl_inv {A B} (f : A → PyExc + B) (xs : list A) (e : PyExc) :
  comprehension f xs = inl e → ∃ x, x ∈ xs ∧ f x = inl e.
Proof.
  induction xs as [|x xs IH]; cbn; [discriminate|].
  destruct (f x) as [e0 | y] eqn:Hx.
  - intros [= <-]. exists x. split; [apply list_elem_of_here | exact Hx].
  - destruct (comprehension f xs) as [e1 | ys]; [|discriminate].
    intros [= <-]. destruct (IH eq_refl) as (x' & Hin & Hx').
    exists x'. split; [by apply list_elem_of_further | exact Hx'].
Qed.

Lemma dict_onto_absent (pairs : list (string * string)) (m : gmap string string)
    (k : string) :
  k ∉ pairs.*1 → foldl (λ m kv, <[kv.1 := kv.2]> m) m pairs !! k = m !! k.
Proof.
  revert m. induction pairs as [|[k' v'] pairs IH]; intros m Hk; cbn; [done|].
  cbn in Hk. apply not_elem_of_cons in Hk as [Hne Hk].
  rewrite IH by done. by rewrite lookup_insert_ne.
Qed.

(** In [dict(pairs)] the last pair of a key gives its value. *)
Lemma dict_last_pair (before after : list (string * string)) (k v : string) :
  k ∉ after.*1 → dict (before ++ (k, v) :: after) !! k = Some v.
Proof.
  intros Hk. unfold dict. rewrite foldl_app. cbn.
  rewrite dict_onto_absent by done. apply lookup_insert_eq.
Qed.

(** When [country_choices()] returns, its result is the stored codes,
    each with the name the static table gives it. *)
Lemma country_choices_fmap (choices : list (string * string))
    (tbl : list ShippingMethodCountry.t) (res : list (string * string)) :
  country_choices choices tbl = inr res →
  res = (λ c, (c, default "" (dict choices !! c))) <$> distinct_country_codes tbl.
Proof.
  unfold country_choices. intros H. apply comprehension_inr in H.
  induction H as [|c p cs res Hc _ IH]; [reflexivity|].
  cbn. rewrite <- IH. f_equal.
  unfold dict_getitem in Hc.
  destruct (dict choices !! c); [by injection Hc as <- | discriminate].
Qed.

Lemma country_choices_returns_iff (choices : list (string * string))
    (tbl : list ShippingMethodCountry.t) :
  (∃ res, country_choices choices tbl = inr res) ↔
  ∀ c, c ∈ map ShippingMethodCountry.country_code tbl → c ∈ choices.*1.
Proof.
  unfold country_choices. split.
  - intros [res H] c Hc. apply comprehension_inr in H.
    apply distinct_country_codes_elem, list_elem_of_lookup in Hc as [i Hi].
    destruct (Forall2_lookup_l _ _ _ _ _ H Hi) as (p & _ & Hf).
    apply dict_is_Some. unfold dict_getitem in Hf.
    destruct (dict choices !! c); [by eexists | discriminate].
  - intros H. apply comprehension_total. intros c Hc.
    apply distinct_country_codes_elem, H, dict_is_Some in Hc as [name Hn].
    exists (c, name). unfold dict_getitem. by rewrite Hn.
Qed.

Section CountryChoicesMore.
Variable COUNTRY_CODE_CHOICES : list (string * string).

(** X10: with no shipping countries stored [country_choices()] returns
    the empty list, whatever the static table; it never returns more
    pairs than there are rows; and what it returns depends on the set of
    stored country codes only: for two tables storing the same codes (as
    after a further row for a country already in use, wherever the row
    is), either both calls return or both raise, and the lists returned
    hold the same pairs, up to their order. *)
Theorem country_choices_size (tbl : list ShippingMethodCountry.t) :
  country_choices COUNTRY_CODE_CHOICES [] = inr [] ∧
  (∀ res, country_choices COUNTRY_CODE_CHOICES tbl = inr res →
          (length res ≤ length tbl)%nat) ∧
  (∀ tbl',
     (∀ c, c ∈ map ShippingMethodCountry.country_code tbl' ↔
           c ∈ map ShippingMethodCountry.country_code tbl) →
     ((∃ res, country_choices COUNTRY_CODE_CHOICES tbl = inr res) ↔
      (∃ res', country_choices COUNTRY_CODE_CHOICES tbl' = inr res')) ∧
     (∀ res res',
        country_choices COUNTRY_CODE_CHOICES tbl = inr res →
        country_choices COUNTRY_CODE_CHOICES tbl' = inr res' →
        res ≡ₚ res')).
Proof.
  split; [reflexivity|]. split.
  - intros res H. unfold country_choices in H.
    apply comprehension_inr, Forall2_length in H. rewrite <- H.
    unfold distinct_country_codes.
    etrans; [apply remove_dups_length|]. by rewrite length_map.
  - intros tbl' Hsame. split.
    + rewrite !(country_choices_returns_iff COUNTRY_CODE_CHOICES).
      split; intros H c Hc; apply H; by apply Hsame.
    + intros res res' Hr Hr'.
      apply (country_choices_fmap COUNTRY_CODE_CHOICES) in Hr, Hr'.
      rewrite Hr, Hr'. apply fmap_Permutation.
      apply NoDup_Permutation; try apply NoDup_remove_dups.
      intros c. rewrite !distinct_country_codes_elem. symmetry. apply Hsame.
Qed.

(** X11: when the static table lists a country code more than once, the
    name shown is the one of its last pair, as [dict] keeps it. *)
Theorem country_choices_last_pair (before after : list (string * string))
    (tbl : list ShippingMethodCountry.t) (res : list (string * string))
    (c name : string) :
  c ∉ after.*1 →
  c ∈ map ShippingMethodCountry.country_code tbl →
  country_choices (before ++ (c, name) :: after) tbl = inr res →
  (c, name) ∈ res ∧ ∀ name', (c, name') ∈ res → name' = name.
Proof.
  intros Hlast Hin H. unfold country_choices in H.
  apply comprehension_inr in H.
  pose proof (dict_last_pair before after c name Hlast) as Hd.
  split.
  - apply distinct_country_codes_elem, list_elem_of_lookup in Hin as [i Hi].
    destruct (Forall2_lookup_l _ _ _ _ _ H Hi) as ([c' n'] & Hres & Hf).
    unfold dict_getitem in Hf. rewrite Hd in Hf. injection Hf as <- <-.
    by apply list_elem_of_lookup_2 in Hres.
  - intros name' Hin'. apply list_elem_of_lookup in Hin' as [i Hi].
    destruct (Forall2_lookup_r _ _ _ _ _ H Hi) as (c0 & _ & Hf).
    unfold dict_getitem in Hf.
    destruct (dict _ !! c0) as [n|] eqn:Hd0; [|discriminate].
    injection Hf as -> ->. congruence.
Qed.

(** X12: [country_choices()] fails in one way only: the exception is a
    KeyError whose key is a stored country code missing from the static
    table. *)
Theorem country_choices_only_key_error (tbl : list ShippingMethodCountry.t)
    (e : PyExc) :
  country_choices COUNTRY_CODE_CHOICES tbl = inl e →
  ∃ c, e = KeyError c ∧
       c ∈ map ShippingMethodCountry.country_code tbl ∧
       (c ∉ COUNTRY_CODE_CHOICES.*1).
Proof.
  unfold country_choices. intros H.
  apply comprehension_inl_inv in H as (c & Hin & Hf).
  unfold dict_getitem in Hf.
  destruct (dict COUNTRY_CODE_CHOICES !! c) as [n|] eqn:Hd; [discriminate|].
  injection Hf as <-. exists c. split; [reflexivity|]. split.
  - by apply distinct_country_codes_elem.
  - rewrite <- dict_is_Some, Hd. by intros [? ?].
Qed.
End CountryChoicesMore.

Lemma country_choices_size_witness :
  (length [("US", "United States of America"); ("PL", "Poland")]
   ≤ length sample_countries)%nat ∧
  [("US", "United States of America"); ("PL", "Poland")]
  ≡ₚ [("PL", "Poland"); ("US", "United States of America")].
Proof.
  destruct (country_choices_size sample_choices sample_countries) as (_ & H1 & H2).
  split.
  - apply H1. reflexivity.
  - apply (H2 (sample_countries ++ [ShippingMethodCountry.mk "US" 3 (7 # 1)])).
    + intros c. cbn. rewrite !elem_of_cons, !elem_of_nil. tauto.
    + reflexivity.
    + reflexivity.
Defined.

Lemma country_choices_last_pair_witness :
  ("PL", "Poland") ∈ [("US", "United States of America"); ("PL", "Poland")] ∧
  ∀ name', ("PL", name') ∈ [("US", "United States of America"); ("PL", "Poland")] →
           name' = "Poland".
Proof.
  apply (country_choices_last_pair
           [("PL", "Polska"); ("US", "United States of America")] []
           sample_countries _ "PL" "Poland").
  - apply not_elem_of_nil.
  - cbn. apply list_elem_of_here.
  - reflexivity.
Defined.

Lemma country_choices_only_key_error_witness :
  ∃ c, KeyError "XX" = KeyError c ∧
       c ∈ map ShippingMethodCountry.country_code unlisted_countries ∧
       (c ∉ sample_choices.*1).
Proof.
  apply (country_choices_only_key_error sample_choices unlisted_countries).
  reflexivity.
Defined.

(** ** The [save] hooks: what is kept, failed saves, repeated saves *)

Lemma form_save_validated (k : VoucherFormClass) (commit : bool) (w : World) :
  validated (form_save k commit w).1 = true.
Proof. rewrite form_save_unfold. apply ModelForm_save_spec. Qed.

Lemma form_save_code_type (k : VoucherFormClass) (commit : bool) (w : World) :
  Voucher.code (instance (form_save k commit w).1) = Voucher.code (instance w) ∧
  Voucher.discount_value_type (instance (form_save k commit w).1)
    = Voucher.discount_value_type (instance w).
Proof.
  destruct (form_save_final k commit w) as (_ & -> & ->).
  destruct (assigned_code_type k (instance w)) as (_ & Hc & Hd).
  destruct (construct_instance_id_code_type (form_fields k) (cleaned_data (form w))
              (assigned k (instance w))) as (_ & Hc' & Hd').
  destruct (validated w); [done|]. by rewrite Hc', Hd', Hc, Hd.
Qed.

(** The attribute changes of a [save] depend on the instance, the cleaned
    data and whether the form was validated before: not on the errors of
    the form, the [commit] flag or the voucher table. *)
Lemma form_save_nullable_instance (k : VoucherFormClass) (c1 c2 : bool)
    (w1 w2 : World) :
  instance w1 = instance w2 →
  cleaned_data (form w1) = cleaned_data (form w2) →
  validated w1 = validated w2 →
  Voucher.nullable (instance (form_save k c1 w1).1)
  = Voucher.nullable (instance (form_save k c2 w2).1).
Proof.
  intros Hi Hc Hv. rewrite !form_save_nullable. by rewrite Hi, Hc, Hv.
Qed.

(** X13: a validated [ShippingVoucherForm] saves the submitted country
    (apply_to) and minimum order value (limit) as they are, whatever the
    discount value type: unlike the product and category forms it does not
    empty apply_to for a percentage voucher. *)
Theorem shipping_save_keeps_submitted (commit : bool) (w : World) (a l : PyVal) :
  cleaned_data (form w) !! "apply_to" = Some a →
  cleaned_data (form w) !! "limit" = Some l →
  Voucher.nullable
    (instance (ShippingVoucherForm.save commit
                 (post_clean ShippingVoucherForm.fields w)).1)
  = (VNone, VNone, l, a).
Proof.
  intros Ha Hl.
  pose proof (form_save_nullable Shipping commit
                (post_clean ShippingVoucherForm.fields w)) as Hn.
  cbn [form_save validated post_clean instance] in Hn.
  rewrite Hn, assigned_nullable.
  destruct (nullable_inv _ _ _ _ _
              (construct_instance_nullable Shipping (cleaned_data (form w))
                 (instance w))) as (_ & _ & Hl' & Ha').
  cbn [form_fields] in Hl', Ha'. rewrite Hl', Ha', Ha, Hl. reflexivity.
Qed.

Lemma shipping_save_keeps_submitted_witness :
  Voucher.nullable
    (instance (ShippingVoucherForm.save true
                 (post_clean ShippingVoucherForm.fields shipping_world)).1)
  = (VNone, VNone, VDec (10 # 1), VStr "US").
Proof.
  apply (shipping_save_keeps_submitted true shipping_world); reflexivity.
Defined.

(** X14: a validated [ValueVoucherForm] saves the submitted limit and
    nothing else of the four attributes. *)
Theorem value_save_keeps_limit (commit : bool) (w : World) (l : PyVal) :
  cleaned_data (form w) !! "limit" = Some l →
  Voucher.nullable
    (instance (ValueVoucherForm.save commit
                 (post_clean ValueVoucherForm.fields w)).1)
  = (VNone, VNone, l, VNone).
Proof.
  intros Hl.
  pose proof (form_save_nullable Value commit
                (post_clean ValueVoucherForm.fields w)) as Hn.
  cbn [form_save validated post_clean instance] in Hn.
  rewrite Hn, assigned_nullable.
  destruct (nullable_inv _ _ _ _ _
              (construct_instance_nullable Value (cleaned_data (form w))
                 (instance w))) as (_ & _ & Hl' & _).
  cbn [form_fields] in Hl'. rewrite Hl', Hl. reflexivity.
Qed.

Lemma value_save_keeps_limit_witness :
  Voucher.nullable
    (instance (ValueVoucherForm.save true
                 (post_clean ValueVoucherForm.fields shipping_world)).1)
  = (VNone, VNone, VDec (10 # 1), VNone).
Proof.
  apply (value_save_keeps_limit true shipping_world). reflexivity.
Defined.

(** X15: a validated [ProductVoucherForm] saves the submitted product with
    category = None and limit = None; apply_to is the submitted choice,
    emptied for a percentage voucher. *)
Theorem product_save_keeps_product (commit : bool) (w : World) (p a : PyVal) :
  cleaned_data (form w) !! "product" = Some p →
  cleaned_data (form w) !! "apply_to" = Some a →
  Voucher.nullable
    (instance (ProductVoucherForm.save commit
                 (post_clean ProductVoucherForm.fields w)).1)
  = (VNone, p, VNone,
     if String.eqb (Voucher.discount_value_type (instance w))
                   Voucher.DISCOUNT_VALUE_PERCENTAGE
     then VNone else a).
Proof.
  intros Hp Ha.
  pose proof (form_save_nullable Product commit
                (post_clean ProductVoucherForm.fields w)) as Hn.
  cbn [form_save validated post_clean instance] in Hn.
  rewrite Hn, assigned_nullable.
  rewrite construct_instance_discount_value_type.
  destruct (nullable_inv _ _ _ _ _
              (construct_instance_nullable Product (cleaned_data (form w))
                 (instance w))) as (_ & Hp' & _ & Ha').
  cbn [form_fields] in Hp', Ha'. rewrite Hp', Ha', Hp, Ha. reflexivity.
Qed.

Lemma product_save_keeps_product_witness :
  Voucher.nullable
    (instance (ProductVoucherForm.save true
                 (post_clean ProductVoucherForm.fields
                    (product_world Voucher.DISCOUNT_VALUE_FIXED))).1)
  = (VNone, VRef 3, VNone, VStr "one").
Proof.
  apply (product_save_keeps_product true
           (product_world Voucher.DISCOUNT_VALUE_FIXED)); reflexivity.
Defined.

(** X16: [save] on a form with errors raises ValueError and stores
    nothing, but the hook has already changed the instance: its four
    attributes are what a save of the same instance on a form without
    errors leaves. *)
Theorem save_invalid_form (k : VoucherFormClass) (commit : bool) (w : World) :
  errors (form w) ≠ ∅ →
  (form_save k commit w).2 = inl ValueError ∧
  vouchers (form_save k commit w).1 = vouchers w ∧
  form (form_save k commit w).1 = form w ∧
  Voucher.nullable (instance (form_save k commit w).1)
  = Voucher.nullable
      (instance (form_save k commit
                   (with_form (mkForm ∅ (cleaned_data (form w))) w)).1).
Proof.
  intros He.
  destruct (ModelForm_save_spec (form_fields k) commit
              (mkWorld (form w) (assigned k (instance w)) (vouchers w) (validated w)))
    as (_ & _ & _ & _ & _ & _ & Herr).
  specialize (Herr He).
  destruct (ensure_validated_form (form_fields k)
              (mkWorld (form w) (assigned k (instance w)) (vouchers w) (validated w)))
    as (Hf & Ht & _).
  split; [|split; [|split; [|by apply form_save_nullable_instance]]];
    rewrite form_save_unfold, Herr; cbn [fst snd]; [reflexivity | exact Ht | exact Hf].
Qed.

Lemma save_invalid_form_witness :
  (ShippingVoucherForm.save true invalid_shipping_world).2 = inl ValueError ∧
  vouchers (ShippingVoucherForm.save true invalid_shipping_world).1
    = vouchers invalid_shipping_world ∧
  Voucher.category (instance (ShippingVoucherForm.save true invalid_shipping_world).1)
    = VNone ∧
  Voucher.category (instance invalid_shipping_world) = VRef 7.
Proof.
  assert (He : errors (form invalid_shipping_world) ≠ ∅).
  { intros H. apply (f_equal (λ m, m !! "limit")) in H. discriminate H. }
  destruct (save_invalid_form Shipping true invalid_shipping_world He)
    as (H1 & H2 & _ & H4).
  split; [exact H1|]. split; [exact H2|].
  split; [|reflexivity].
  apply nullable_inv with (p := VNone) (l := VNone) (a := VNone).
  etrans; [exact H4 | reflexivity].
Defined.

(** X17: with [commit] false a valid form is not stored: the voucher table
    is as before, and the call returns the instance with the hook's changes
    and its primary key as it was. *)
Theorem save_without_commit (k : VoucherFormClass) (w : World) :
  errors (form w) = ∅ →
  (form_save k false w).2 = inr (instance (form_save k false w).1) ∧
  vouchers (form_save k false w).1 = vouchers w ∧
  Voucher.id (instance (form_save k false w).1) = Voucher.id (instance w).
Proof.
  intros He. rewrite form_save_unfold.
  destruct (ModelForm_save_spec (form_fields k) false
              (mkWorld (form w) (assigned k (instance w)) (vouchers w) (validated w)))
    as (_ & _ & _ & _ & _ & Hok & _).
  destruct (Hok He) as (_ & _ & Heq). rewrite (Heq eq_refl). cbn [fst snd].
  split; [reflexivity|].
  split.
  { destruct (ensure_validated_form (form_fields k)
                (mkWorld (form w) (assigned k (instance w)) (vouchers w)
                   (validated w))) as (_ & Ht & _).
    exact Ht. }
  destruct (assigned_code_type k (instance w)) as (Hid & _).
  destruct (construct_instance_id_code_type (form_fields k) (cleaned_data (form w))
              (assigned k (instance w))) as (Hid' & _).
  unfold ensure_validated. cbn. destruct (validated w); cbn; congruence.
Qed.

Lemma save_without_commit_witness :
  (ShippingVoucherForm.save false shipping_world).2
    = inr (instance (ShippingVoucherForm.save false shipping_world).1) ∧
  vouchers (ShippingVoucherForm.save false shipping_world).1 = [] ∧
  Voucher.id (instance (ShippingVoucherForm.save false shipping_world).1) = None.
Proof.
  apply (save_without_commit Shipping shipping_world). reflexivity.
Defined.

(** X18: saving again a form that was validated before its first save
    (or a shipping or value form in any case) changes none of the four
    attributes further. *)
Theorem save_twice (k : VoucherFormClass) (c1 c2 : bool) (w : World) :
  validated w = true ∨ k = Shipping ∨ k = Value →
  Voucher.nullable (instance (form_save k c2 (form_save k c1 w).1).1)
  = Voucher.nullable (instance (form_save k c1 w).1).
Proof.
  intros Hk.
  pose proof (form_save_code_type k c1 w) as [_ Hd].
  pose proof (form_save_nullable k c1 w) as H1.
  rewrite form_save_nullable, form_save_validated.
  rewrite assigned_nullable, Hd.
  rewrite unvalidated_nullable, assigned_nullable in H1. cbv zeta in H1.
  destruct (validated w), k;
    try (destruct Hk as [Hk | [Hk | Hk]]; discriminate);
    destruct (nullable_inv _ _ _ _ _ H1) as (_ & Hp & Hl & Ha);
    rewrite H1, ?Hp, ?Hl, ?Ha; try reflexivity;
    by destruct (String.eqb _ _).
Qed.

Lemma save_twice_witness :
  Voucher.nullable
    (instance (form_save Shipping true (form_save Shipping true shipping_world).1).1)
  = Voucher.nullable (instance (form_save Shipping true shipping_world).1).
Proof.
  apply (save_twice Shipping true true shipping_world). right. by left.
Defined.

(** X19: no [save] hook changes the voucher's code or its discount value
    type, whether the save succeeds, raises or stores the instance. *)
Theorem save_keeps_code_and_type (k : VoucherFormClass) (commit : bool) (w : World) :
  Voucher.code (instance (form_save k commit w).1) = Voucher.code (instance w) ∧
  Voucher.discount_value_type (instance (form_save k commit w).1)
    = Voucher.discount_value_type (instance w).
Proof. apply form_save_code_type. Qed.


